(** * ECG upload server: content classification and embedded-PDF extraction

    A shallow embedding of the two Python sources of the repository,

    - [http_server.py]: [ECGUploadHandler.detect_file_type],
      [ECGUploadHandler.extract_pdf_from_xml], [ECGUploadHandler.check_auth]
      and the naming, classification and extraction steps of
      [ECGUploadHandler.do_POST];
    - [extract_ecg_pdf.py]: [extract_pdf_from_ecg_xml];

    together with executable models of the Python built-ins and standard
    library functions they call ([bytes.decode], [str.strip], [str.split],
    [base64.b64decode], [xml.etree.ElementTree]).

    Conventions.  A Python [bytes] object is a [list byte]; a Python [str] is
    the list of its Unicode code points ([list N]); a call that may raise is a
    value of [outcome], and [try ... except] is a match on it. *)

From Stdlib Require Import String List NArith Bool Arith Lia.
From Stdlib Require Import Strings.Byte.
Import ListNotations.

Set Implicit Arguments.

Local Open Scope N_scope.

(** ** Outcomes of Python calls *)

(** The exception classes that the modelled calls can raise. *)
Inductive exn : Type :=
| UnicodeDecodeError   (* bytes.decode under errors='strict' *)
| ParseError           (* xml.etree.ElementTree.ParseError *)
| ValueError           (* base64: non-ASCII character in a str argument *)
| BinasciiError        (* binascii.Error: incomplete base64 input *)
| OSError.             (* open() on a file that cannot be read *)

Inductive outcome (A : Type) : Type :=
| Returns (a : A)
| Raises (e : exn).

Arguments Returns {A} a.
Arguments Raises {A} e.

Definition bind {A B} (c : outcome A) (k : A -> outcome B) : outcome B :=
  match c with
  | Returns a => k a
  | Raises e => Raises e
  end.

Notation "x <- c ;; k" := (bind c (fun x => k))
  (at level 61, c at next level, right associativity).

(** [try: body  except ...: handler]. *)
Definition try_except {A} (body : outcome A) (handler : exn -> outcome A)
  : outcome A :=
  match body with
  | Returns a => Returns a
  | Raises e => handler e
  end.

(** [c] followed by consing its result: the output written so far is kept
    only when the rest of the loop does not raise. *)
Definition emit {A} (a : A) (c : outcome (list A)) : outcome (list A) :=
  r <- c ;; Returns (a :: r).

(** ** Bytes and text *)

Definition bytes := list byte.
Definition text := list N.

(** An ASCII literal as [bytes] and as [str]. *)
Definition b (s : string) : bytes := list_byte_of_string s.
Definition str (s : string) : text := map Byte.to_N (list_byte_of_string s).

(** Truncation of an integer to an [unsigned char]. *)
Definition byte_of_N (n : N) : byte :=
  match Byte.of_N (n mod 256) with
  | Some x => x
  | None => x00
  end.

Module Py.

Section Sequences.
Variable A : Type.
Variable eqb : A -> A -> bool.

(** [s == t] on sequences. *)
Fixpoint seq_eqb (s t : list A) : bool :=
  match s, t with
  | [], [] => true
  | x :: s', y :: t' => eqb x y && seq_eqb s' t'
  | _, _ => false
  end.

(** [s.startswith(prefix)]. *)
Fixpoint startswith (s prefix : list A) {struct prefix} : bool :=
  match prefix with
  | [] => true
  | p :: prefix' =>
    match s with
    | [] => false
    | x :: s' => eqb p x && startswith s' prefix'
    end
  end.

(** [sub in s]: [sub] occurs as a contiguous run of [s]. *)
Fixpoint contains (sub s : list A) : bool :=
  startswith s sub ||
  match s with
  | [] => false
  | _ :: s' => contains sub s'
  end.

(** [s.lstrip()], [s.rstrip()] and [s.strip()] for a class [sp] of
    characters. *)
Fixpoint lstrip (sp : A -> bool) (s : list A) : list A :=
  match s with
  | [] => []
  | x :: s' => if sp x then lstrip sp s' else s
  end.

Definition rstrip (sp : A -> bool) (s : list A) : list A :=
  rev (lstrip sp (rev s)).

Definition strip (sp : A -> bool) (s : list A) : list A :=
  rstrip sp (lstrip sp s).
End Sequences.

Definition bytes_eqb : bytes -> bytes -> bool := seq_eqb Byte.eqb.
Definition bytes_startswith : bytes -> bytes -> bool := startswith Byte.eqb.
Definition bytes_contains : bytes -> bytes -> bool := contains Byte.eqb.
Definition str_startswith : text -> text -> bool := startswith N.eqb.
Definition str_contains : text -> text -> bool := contains N.eqb.

(** [data[:n]]. *)
Definition upto {A} (n : nat) (s : list A) : list A := firstn n s.

(** [bytes.lower()]: only the ASCII letters [A]..[Z] change. *)
Definition lower_byte (x : byte) : byte :=
  let n := Byte.to_N x in
  if (65 <=? n) && (n <=? 90) then byte_of_N (n + 32) else x.

Definition bytes_lower (s : bytes) : bytes := map lower_byte s.

(** [str.isspace] for one character (the code points with bidirectional
    type WS, B or S, or category Zs). *)
Definition isspace (c : N) : bool :=
  ((9 <=? c) && (c <=? 13)) || ((28 <=? c) && (c <=? 32)) ||
  (c =? 133) || (c =? 160) || (c =? 5760) ||
  ((8192 <=? c) && (c <=? 8202)) || (c =? 8232) || (c =? 8233) ||
  (c =? 8239) || (c =? 8287) || (c =? 12288).

Definition str_strip (s : text) : text := strip isspace s.

(** Truth value of a [str]: non-empty. *)
Definition truthy {A} (s : list A) : bool :=
  match s with [] => false | _ :: _ => true end.

(** [str.lower()] for one character.  The letters of ISO-8859-1, the
    character set of HTTP header values, are modelled; a character from 256
    on is left as it is.  (No character from 256 on has an ASCII letter as
    its lower case, so a comparison of the result with an ASCII word is not
    affected.) *)
Definition lower_char (c : N) : N :=
  if ((65 <=? c) && (c <=? 90))
     || ((192 <=? c) && (c <=? 222) && negb (c =? 215))
  then c + 32 else c.

Definition str_lower (s : text) : text := map lower_char s.

(** [s.split(sep, 1)] for a separator of one character: the part before the
    first separator and, when there is one, the part after it. *)
Fixpoint split_once (sep : N) (s : text) : text * option text :=
  match s with
  | [] => ([], None)
  | c :: s' =>
    if c =? sep then ([], Some s')
    else let (h, r) := split_once sep s' in (c :: h, r)
  end.

(** [s.endswith(suffix)]. *)
Definition str_endswith (s suffix : text) : bool :=
  startswith N.eqb (rev s) (rev suffix).



End Py.

(** ** Codecs: [bytes.decode(encoding, errors)] *)

Module Codecs.

Inductive errors : Type := strict | ignore | replace.

(** What the error handler does with an undecodable run, [k] being the
    decoding of what follows the run. *)
Definition on_error (e : errors) (k : outcome text) : outcome text :=
  match e with
  | strict => Raises UnicodeDecodeError
  | ignore => k
  | replace => emit 65533 k
  end.

Definition is_continuation (c : N) : bool := (128 <=? c) && (c <? 192).

(** UTF-8.  The error runs are those of CPython's decoder: an invalid start
    byte is a run of one byte, an invalid continuation byte ends the run
    before it, and a sequence cut by the end of the input is a run that
    reaches the end. *)
Fixpoint utf8_decode (e : errors) (s : bytes) : outcome text :=
  match s with
  | [] => Returns []
  | b0 :: s1 =>
    let ch := Byte.to_N b0 in
    if ch <? 128 then emit ch (utf8_decode e s1)
    else if ch <? 194 then on_error e (utf8_decode e s1)
    else if ch <? 224 then
      match s1 with
      | [] => on_error e (Returns [])
      | b1 :: s2 =>
        let ch2 := Byte.to_N b1 in
        if is_continuation ch2
        then emit ((ch - 192) * 64 + (ch2 - 128)) (utf8_decode e s2)
        else on_error e (utf8_decode e s1)
      end
    else if ch <? 240 then
      match s1 with
      | [] => on_error e (Returns [])
      | b1 :: s2 =>
        let ch2 := Byte.to_N b1 in
        if negb (is_continuation ch2)
           || (if ch2 <? 160 then ch =? 224 else ch =? 237)
        then on_error e (utf8_decode e s1)
        else
          match s2 with
          | [] => on_error e (Returns [])
          | b2 :: s3 =>
            let ch3 := Byte.to_N b2 in
            if is_continuation ch3
            then emit ((ch - 224) * 4096 + (ch2 - 128) * 64 + (ch3 - 128))
                      (utf8_decode e s3)
            else on_error e (utf8_decode e s2)
          end
      end
    else if ch <? 245 then
      match s1 with
      | [] => on_error e (Returns [])
      | b1 :: s2 =>
        let ch2 := Byte.to_N b1 in
        if negb (is_continuation ch2)
           || (if ch2 <? 144 then ch =? 240 else ch =? 244)
        then on_error e (utf8_decode e s1)
        else
          match s2 with
          | [] => on_error e (Returns [])
          | b2 :: s3 =>
            let ch3 := Byte.to_N b2 in
            if negb (is_continuation ch3)
            then on_error e (utf8_decode e s2)
            else
              match s3 with
              | [] => on_error e (Returns [])
              | b3 :: s4 =>
                let ch4 := Byte.to_N b3 in
                if is_continuation ch4
                then emit ((ch - 240) * 262144 + (ch2 - 128) * 4096
                           + (ch3 - 128) * 64 + (ch4 - 128))
                          (utf8_decode e s4)
                else on_error e (utf8_decode e s3)
              end
          end
      end
    else on_error e (utf8_decode e s1)
  end.

(** UTF-16, little endian ([be = false]) or big endian ([be = true]).  No
    byte-order mark is interpreted: a leading mark decodes to U+FEFF. *)
Definition code_unit (be : bool) (x y : byte) : N :=
  if be then Byte.to_N x * 256 + Byte.to_N y
  else Byte.to_N y * 256 + Byte.to_N x.

Definition is_surrogate (u : N) : bool := (55296 <=? u) && (u <=? 57343).
Definition is_high_surrogate (u : N) : bool := (55296 <=? u) && (u <=? 56319).
Definition is_low_surrogate (u : N) : bool := (56320 <=? u) && (u <=? 57343).

Definition join_surrogates (hi lo : N) : N :=
  65536 + (hi - 55296) * 1024 + (lo - 56320).

Fixpoint utf16_decode (be : bool) (e : errors) (s : bytes) : outcome text :=
  match s with
  | [] => Returns []
  | [_] => on_error e (Returns [])                   (* truncated data *)
  | b0 :: b1 :: s2 =>
    let ch := code_unit be b0 b1 in
    if negb (is_surrogate ch) then emit ch (utf16_decode be e s2)
    else if negb (is_high_surrogate ch)
    then on_error e (utf16_decode be e s2)           (* illegal encoding *)
    else
      match s2 with
      | c0 :: c1 :: s4 =>
        let ch2 := code_unit be c0 c1 in
        if is_low_surrogate ch2
        then emit (join_surrogates ch ch2) (utf16_decode be e s4)
        else on_error e (utf16_decode be e s2)       (* illegal surrogate *)
      | _ => on_error e (Returns [])                 (* unexpected end *)
      end
  end.

Inductive encoding : Type := utf_8 | utf_16_le | utf_16_be.

(** [data.decode(enc, errors=e)]. *)
Definition decode (enc : encoding) (e : errors) (data : bytes) : outcome text :=
  match enc with
  | utf_8 => utf8_decode e data
  | utf_16_le => utf16_decode false e data
  | utf_16_be => utf16_decode true e data
  end.

End Codecs.

(** ** [base64]: [b64encode] and [b64decode] *)

Module Base64.

Definition alphabet : bytes :=
  Eval cbv in
    b "ABCDEFGHIJKLMNOPQRSTUVWXYZabcdefghijklmnopqrstuvwxyz0123456789+/".

Definition pad : byte := x3d.

(** [table_b2a_base64]: the character of a six-bit value. *)
Definition b2a (v : N) : byte := nth (N.to_nat v) alphabet pad.

(** [table_a2b_base64]: the six-bit value of a character of the alphabet,
    [None] for every other character. *)
Definition a2b (c : N) : option N :=
  if (65 <=? c) && (c <=? 90) then Some (c - 65)
  else if (97 <=? c) && (c <=? 122) then Some (c - 71)
  else if (48 <=? c) && (c <=? 57) then Some (c + 4)
  else if c =? 43 then Some 62
  else if c =? 47 then Some 63
  else None.

(** [base64.b64encode(s)]: three bytes become four characters, and the last
    one or two bytes are padded with [=]. *)
Fixpoint b64encode (s : bytes) : bytes :=
  match s with
  | [] => []
  | [x] =>
    let x := Byte.to_N x in
    [b2a (N.shiftr x 2); b2a (N.shiftl (N.land x 3) 4); pad; pad]
  | [x; y] =>
    let x := Byte.to_N x in
    let y := Byte.to_N y in
    [b2a (N.shiftr x 2);
     b2a (N.lor (N.shiftl (N.land x 3) 4) (N.shiftr y 4));
     b2a (N.shiftl (N.land y 15) 2); pad]
  | x :: y :: z :: s' =>
    let x := Byte.to_N x in
    let y := Byte.to_N y in
    let z := Byte.to_N z in
    b2a (N.shiftr x 2)
    :: b2a (N.lor (N.shiftl (N.land x 3) 4) (N.shiftr y 4))
    :: b2a (N.lor (N.shiftl (N.land y 15) 2) (N.shiftr z 6))
    :: b2a (N.land z 63)
    :: b64encode s'
  end.

(** The loop of [binascii.a2b_base64] in its default, non-strict mode
    (CPython 3.11).  [quad_pos] counts the characters of the current group
    of four, [leftchar] holds the bits not yet written, [pads] the [=]
    seen since the last character of the alphabet.  A character outside the
    alphabet is skipped; a [=] that completes a group ends the decoding,
    whatever follows; input that ends inside a group raises. *)
Fixpoint a2b_loop (s : bytes) (quad_pos leftchar pads : N) : outcome bytes :=
  match s with
  | [] => if quad_pos =? 0 then Returns [] else Raises BinasciiError
  | c :: s' =>
    if Byte.eqb c pad then
      if 2 <=? quad_pos then
        if 4 <=? quad_pos + (pads + 1) then Returns []
        else a2b_loop s' quad_pos leftchar (pads + 1)
      else a2b_loop s' quad_pos leftchar pads
    else
      match a2b (Byte.to_N c) with
      | None => a2b_loop s' quad_pos leftchar pads
      | Some this_ch =>
        if quad_pos =? 0 then a2b_loop s' 1 this_ch 0
        else if quad_pos =? 1 then
          emit (byte_of_N (N.lor (N.shiftl leftchar 2) (N.shiftr this_ch 4)))
               (a2b_loop s' 2 (N.land this_ch 15) 0)
        else if quad_pos =? 2 then
          emit (byte_of_N (N.lor (N.shiftl leftchar 4) (N.shiftr this_ch 2)))
               (a2b_loop s' 3 (N.land this_ch 3) 0)
        else
          emit (byte_of_N (N.lor (N.shiftl leftchar 6) this_ch))
               (a2b_loop s' 0 0 0)
      end
  end.

Definition a2b_base64 (s : bytes) : outcome bytes := a2b_loop s 0 0 0.

(** [s.encode('ascii')] as [b64decode] applies it to a [str] argument. *)
Fixpoint encode_ascii (s : text) : outcome bytes :=
  match s with
  | [] => Returns []
  | c :: s' =>
    if c <? 128 then emit (byte_of_N c) (encode_ascii s')
    else Raises ValueError
  end.

(** [base64.b64decode(s)] for a [str] argument [s]. *)
Definition b64decode (s : text) : outcome bytes :=
  data <- encode_ascii s ;; a2b_base64 data.

End Base64.

(** ** [xml.etree.ElementTree] *)

Module ET.

(** An element: [tag], [attrib] (in document order), [text], the child
    elements, and [tail].  A tag in a namespace is spelled [{uri}local], as
    ElementTree does. *)
#[warnings="-register-all"]
Inductive Element : Type :=
| Elem (tag : text) (attrib : list (text * text)) (text_ : option text)
       (children : list Element) (tail : option text).

Definition tag (e : Element) : text :=
  match e with Elem t _ _ _ _ => t end.
Definition attrib (e : Element) : list (text * text) :=
  match e with Elem _ a _ _ _ => a end.
Definition text_ (e : Element) : option text :=
  match e with Elem _ _ x _ _ => x end.
Definition children (e : Element) : list Element :=
  match e with Elem _ _ _ cs _ => cs end.
Definition tail (e : Element) : option text :=
  match e with Elem _ _ _ _ x => x end.

Definition set_tail (x : option text) (e : Element) : Element :=
  match e with Elem t a tx cs _ => Elem t a tx cs x end.

(** [e.iter()]: the element and its descendants in document order. *)
Fixpoint iter (e : Element) : list Element :=
  match e with
  | Elem _ _ _ cs _ => e :: flat_map iter cs
  end.

Definition tag_is (name : text) (e : Element) : bool :=
  Py.seq_eqb N.eqb (tag e) name.

(** [root.find('.//' + name)]: the first element below [root], at any
    depth, whose tag equals [name]; [root] itself is not a candidate
    (ElementPath selects [e in root.iter(name) if e is not root]). *)
Definition find_descendant (name : text) (root : Element) : option Element :=
  find (tag_is name) (flat_map iter (children root)).

(** *** A reference parser

    [fromstring] below parses the element fragment of XML 1.0: an optional
    byte-order mark and XML declaration, processing instructions and
    comments, start, end and empty-element tags with attributes and
    namespace declarations, and character data.  Document type
    declarations, CDATA sections, entity and character references and
    carriage returns are outside the fragment and are reported as
    [ParseError].  The parser reads one character at a time, as expat does,
    and builds the tree the way [TreeBuilder] does. *)

Definition is_space (c : N) : bool :=
  (c =? 32) || (c =? 9) || (c =? 10).

Definition is_name_start (c : N) : bool :=
  ((65 <=? c) && (c <=? 90)) || ((97 <=? c) && (c <=? 122)) ||
  (c =? 95) || (c =? 58) || (128 <=? c).

Definition is_name_char (c : N) : bool :=
  is_name_start c || ((48 <=? c) && (c <=? 57)) || (c =? 45) || (c =? 46).

(** Characters that may occur in a document of the fragment. *)
Definition is_char (c : N) : bool :=
  (32 <=? c) || (c =? 9) || (c =? 10).

Inductive mode : Type :=
| Content
| TagOpen
| PITarget (target_rev : text)
| PIBody (qmark : bool)
| BangOpen (dashes : nat)
| Comment (dashes : nat)
| StartName (name_rev : text)
| InTag (name : text) (attrs : list (text * text)) (spaced : bool)
| AttrName (name : text) (attrs : list (text * text)) (an_rev : text)
| AttrEq (name : text) (attrs : list (text * text)) (an : text)
| AttrQuote (name : text) (attrs : list (text * text)) (an : text)
| AttrValue (name : text) (attrs : list (text * text)) (an : text)
            (quote : N) (value_rev : text)
| EmptyTagEnd (name : text) (attrs : list (text * text))
| EndName (name_rev : text)
| EndSpace (name : text).

(** An element that is still open. *)
Record frame : Type := Frame {
  f_qname : text;                      (* the name as written *)
  f_tag : text;                        (* the name with its namespace *)
  f_attrib : list (text * text);
  f_ns : list (text * text);           (* namespace bindings in scope *)
  f_text : option text;
  f_children_rev : list Element
}.

Record state : Type := State {
  st_mode : mode;
  st_fresh : bool;                     (* nothing has been read yet *)
  st_stack : list frame;
  st_data_rev : text;                  (* pending character data *)
  st_root : option Element
}.

Definition initial : state := State Content true [] [] None.

Definition xml_target : text := Eval cbv in str "xml".

Definition xml_ns : text :=
  Eval cbv in str "http://www.w3.org/XML/1998/namespace".

Definition colon : N := 58.

(** [prefix:local] split at its first colon. *)
Fixpoint split_colon (name : text) : option (text * text) :=
  match name with
  | [] => None
  | c :: name' =>
    if c =? colon then Some ([], name')
    else match split_colon name' with
         | Some (p, l) => Some (c :: p, l)
         | None => None
         end
  end.

Fixpoint lookup (k : text) (env : list (text * text)) : option text :=
  match env with
  | [] => None
  | (k', v) :: env' =>
    if Py.seq_eqb N.eqb k k' then Some v else lookup k env'
  end.

Definition xmlns : text := Eval cbv in str "xmlns".

(** The namespace bindings that the attributes of a start tag add. *)
Fixpoint declarations (attrs : list (text * text)) : list (text * text) :=
  match attrs with
  | [] => []
  | (n, v) :: attrs' =>
    if Py.seq_eqb N.eqb n xmlns then ([], v) :: declarations attrs'
    else match split_colon n with
         | Some (p, l) =>
           if Py.seq_eqb N.eqb p xmlns then (l, v) :: declarations attrs'
           else declarations attrs'
         | None => declarations attrs'
         end
  end.

Definition is_declaration (n : text) : bool :=
  Py.seq_eqb N.eqb n xmlns ||
  match split_colon n with
  | Some (p, _) => Py.seq_eqb N.eqb p xmlns
  | None => false
  end.

Definition braces (uri local : text) : text :=
  123 :: uri ++ 125 :: local.

(** The tag of an element named [name] under the bindings [env]. *)
Definition element_tag (env : list (text * text)) (name : text)
  : outcome text :=
  match split_colon name with
  | Some (p, l) =>
    match lookup p env with
    | Some uri => Returns (braces uri l)
    | None => Raises ParseError                          (* unbound prefix *)
    end
  | None =>
    match lookup [] env with
    | Some uri => if Py.truthy uri then Returns (braces uri name)
                  else Returns name
    | None => Returns name
    end
  end.

(** The key of an attribute: the default namespace does not apply. *)
Definition attribute_key (env : list (text * text)) (name : text)
  : outcome text :=
  match split_colon name with
  | Some (p, l) =>
    match lookup p env with
    | Some uri => Returns (braces uri l)
    | None => Raises ParseError
    end
  | None => Returns name
  end.

Fixpoint attribute_dict (env : list (text * text))
         (attrs : list (text * text)) : outcome (list (text * text)) :=
  match attrs with
  | [] => Returns []
  | (n, v) :: attrs' =>
    if is_declaration n then attribute_dict env attrs'
    else k <- attribute_key env n ;;
         emit (k, v) (attribute_dict env attrs')
  end.

Definition some_text (s : text) : option text :=
  match s with [] => None | _ :: _ => Some s end.

(** [TreeBuilder._flush]: the pending data becomes the text of the open
    element when it has no child yet, and the tail of its last child
    otherwise. *)
Definition flush (data_rev : text) (f : frame) : frame :=
  match data_rev with
  | [] => f
  | _ :: _ =>
    let data := rev data_rev in
    match f_children_rev f with
    | [] =>
      Frame (f_qname f) (f_tag f) (f_attrib f) (f_ns f) (Some data) []
    | last :: cs =>
      Frame (f_qname f) (f_tag f) (f_attrib f) (f_ns f) (f_text f)
            (set_tail (Some data) last :: cs)
    end
  end.

Definition flush_stack (data_rev : text) (stack : list frame) : list frame :=
  match stack with
  | [] => []
  | f :: stack' => flush data_rev f :: stack'
  end.

Definition add_child (e : Element) (f : frame) : frame :=
  Frame (f_qname f) (f_tag f) (f_attrib f) (f_ns f) (f_text f)
        (e :: f_children_rev f).

Definition scope (stack : list frame) : list (text * text) :=
  match stack with
  | [] => [(xml_target, xml_ns)]
  | f :: _ => f_ns f
  end.

(** The start-tag event. *)
Definition start (st : state) (name : text) (attrs_rev : list (text * text))
  : outcome state :=
  match st_root st with
  | Some _ => Raises ParseError              (* junk after document element *)
  | None =>
    let attrs := rev attrs_rev in
    let env := declarations attrs ++ scope (st_stack st) in
    t <- element_tag env name ;;
    a <- attribute_dict env attrs ;;
    Returns (State Content false
                   (Frame name t a env None []
                    :: flush_stack (st_data_rev st) (st_stack st))
                   [] None)
  end.

(** The end-tag event. *)
Definition end_ (st : state) (name : text) : outcome state :=
  match flush_stack (st_data_rev st) (st_stack st) with
  | [] => Raises ParseError
  | f :: stack' =>
    if Py.seq_eqb N.eqb (f_qname f) name then
      let e := Elem (f_tag f) (f_attrib f) (f_text f)
                    (rev (f_children_rev f)) None in
      match stack' with
      | [] => Returns (State Content false [] [] (Some e))
      | parent :: stack'' =>
        Returns (State Content false (add_child e parent :: stack'') [] None)
      end
    else Raises ParseError                              (* mismatched tag *)
  end.

Definition with_mode (m : mode) (st : state) : state :=
  State m false (st_stack st) (st_data_rev st) (st_root st).

Definition has_key (n : text) (attrs : list (text * text)) : bool :=
  existsb (fun p => Py.seq_eqb N.eqb (fst p) n) attrs.

(** One character of input. *)
Definition step (st : state) (c : N) : outcome state :=
  if negb (is_char c) then Raises ParseError else
  match st_mode st with
  | Content =>
    if c =? 60 then
      Returns (State TagOpen (st_fresh st) (st_stack st) (st_data_rev st)
                     (st_root st))
    else if c =? 38 then Raises ParseError
    else match st_stack st with
         | [] => if is_space c then Returns (with_mode Content st)
                 else Raises ParseError
         | _ :: _ =>
           Returns (State Content false (st_stack st) (c :: st_data_rev st)
                          (st_root st))
         end
  | TagOpen =>
    if c =? 63 then
      Returns (State (PITarget []) (st_fresh st) (st_stack st)
                     (st_data_rev st) (st_root st))
    else if c =? 33 then Returns (with_mode (BangOpen 0) st)
    else if c =? 47 then Returns (with_mode (EndName []) st)
    else if is_name_start c then Returns (with_mode (StartName [c]) st)
    else Raises ParseError
  | PITarget target_rev =>
    if is_name_char c then
      Returns (State (PITarget (c :: target_rev)) (st_fresh st) (st_stack st)
                     (st_data_rev st) (st_root st))
    else if negb (Py.truthy target_rev) then Raises ParseError
    else if Py.seq_eqb N.eqb (rev target_rev) xml_target
              && negb (st_fresh st)
    then Raises ParseError        (* XML declaration not at the start *)
    else if c =? 63 then Returns (with_mode (PIBody true) st)
    else if is_space c then Returns (with_mode (PIBody false) st)
    else Raises ParseError
  | PIBody qmark =>
    if qmark && (c =? 62) then Returns (with_mode Content st)
    else Returns (with_mode (PIBody (c =? 63)) st)
  | BangOpen dashes =>
    if c =? 45 then
      match dashes with
      | O => Returns (with_mode (BangOpen 1) st)
      | _ => Returns (with_mode (Comment 0) st)
      end
    else Raises ParseError
  | Comment dashes =>
    match dashes with
    | S (S _) => if c =? 62 then Returns (with_mode Content st)
                 else Raises ParseError
    | _ => if c =? 45 then Returns (with_mode (Comment (S dashes)) st)
           else Returns (with_mode (Comment 0) st)
    end
  | StartName name_rev =>
    if is_name_char c then Returns (with_mode (StartName (c :: name_rev)) st)
    else if is_space c then Returns (with_mode (InTag (rev name_rev) [] true) st)
    else if c =? 62 then start st (rev name_rev) []
    else if c =? 47 then Returns (with_mode (EmptyTagEnd (rev name_rev) []) st)
    else Raises ParseError
  | InTag name attrs spaced =>
    if is_space c then Returns (with_mode (InTag name attrs true) st)
    else if c =? 62 then start st name attrs
    else if c =? 47 then Returns (with_mode (EmptyTagEnd name attrs) st)
    else if spaced && is_name_start c
    then Returns (with_mode (AttrName name attrs [c]) st)
    else Raises ParseError
  | AttrName name attrs an_rev =>
    if is_name_char c
    then Returns (with_mode (AttrName name attrs (c :: an_rev)) st)
    else if has_key (rev an_rev) attrs then Raises ParseError
    else if is_space c then Returns (with_mode (AttrEq name attrs (rev an_rev)) st)
    else if c =? 61 then Returns (with_mode (AttrQuote name attrs (rev an_rev)) st)
    else Raises ParseError
  | AttrEq name attrs an =>
    if is_space c then Returns (with_mode (AttrEq name attrs an) st)
    else if c =? 61 then Returns (with_mode (AttrQuote name attrs an) st)
    else Raises ParseError
  | AttrQuote name attrs an =>
    if is_space c then Returns (with_mode (AttrQuote name attrs an) st)
    else if (c =? 34) || (c =? 39)
    then Returns (with_mode (AttrValue name attrs an c []) st)
    else Raises ParseError
  | AttrValue name attrs an quote value_rev =>
    if c =? quote
    then Returns (with_mode (InTag name ((an, rev value_rev) :: attrs) false) st)
    else if (c =? 60) || (c =? 38) then Raises ParseError
    else Returns (with_mode (AttrValue name attrs an quote (c :: value_rev)) st)
  | EmptyTagEnd name attrs =>
    if c =? 62 then st' <- start st name attrs ;; end_ st' name
    else Raises ParseError
  | EndName name_rev =>
    if is_name_char c && (Py.truthy name_rev || is_name_start c)
    then Returns (with_mode (EndName (c :: name_rev)) st)
    else if negb (Py.truthy name_rev) then Raises ParseError
    else if is_space c then Returns (with_mode (EndSpace (rev name_rev)) st)
    else if c =? 62 then end_ st (rev name_rev)
    else Raises ParseError
  | EndSpace name =>
    if is_space c then Returns (with_mode (EndSpace name) st)
    else if c =? 62 then end_ st name
    else Raises ParseError
  end.

(** [parser.feed(s)]. *)
Fixpoint feed (st : state) (s : text) : outcome state :=
  match s with
  | [] => Returns st
  | c :: s' => st' <- step st c ;; feed st' s'
  end.

(** [parser.close()]: the document must be complete. *)
Definition close (st : state) : outcome Element :=
  match st_mode st, st_stack st, st_root st with
  | Content, [], Some root => Returns root
  | _, _, _ => Raises ParseError
  end.

(** A byte-order mark at the start of the text is skipped. *)
Definition skip_mark (s : text) : text :=
  match s with
  | c :: s' => if c =? 65279 then s' else s
  | [] => []
  end.

(** [ET.fromstring(s)] on the fragment. *)
Definition fromstring (s : text) : outcome Element :=
  st <- feed initial (skip_mark s) ;; close st.

End ET.

Local Open Scope string_scope.

(** ** [http_server.py]: class [ECGUploadHandler] *)

Module HttpServer.

Import Py Codecs.

Definition pdf_signature : bytes := Eval cbv in b "%PDF".
Definition xml_signature : bytes := Eval cbv in b "<?xml".
Definition bom_le : bytes := [xff; xfe].
Definition bom_be : bytes := [xfe; xff].

(** [try: body  except: pass], where [body] may execute a [return]:
    [Some r] is [return r], [None] is falling out of the statement. *)
Definition try_pass {A} (body : outcome (option A)) : option A :=
  match body with
  | Returns r => r
  | Raises _ => None
  end.

(** ['<?xml' in text or '<restingecgdata' in text] *)
Definition has_xml_marker (t : text) : bool :=
  str_contains (str "<?xml") t || str_contains (str "<restingecgdata") t.

(** The body of the two UTF-16 probes (lines 35-40 and 44-49). *)
Definition utf16_probe (enc : encoding) (data : bytes) : option string :=
  try_pass
    (t <- decode enc ignore (upto 200 data) ;;
     if has_xml_marker t then Returns (Some ".xml") else Returns None).

(** [text.strip().startswith('{') or text.strip().startswith('[')] *)
Definition looks_like_json (t : text) : bool :=
  str_startswith (str_strip t) (str "{")
  || str_startswith (str_strip t) (str "[").

(** The body of the JSON probe (lines 56-61). *)
Definition json_probe (data : bytes) : option string :=
  try_pass
    (t <- decode utf_8 ignore (upto 100 data) ;;
     if looks_like_json t then Returns (Some ".json") else Returns None).

(** The conditions of the [if] statements, in the order of the source. *)

(** Line 26: [data[:4] == b'%PDF'] *)
Definition pdf_check (data : bytes) : bool :=
  bytes_eqb (upto 4 data) pdf_signature.

(** Line 30: [data[:5] == b'<?xml'] *)
Definition xml_check (data : bytes) : bool :=
  bytes_eqb (upto 5 data) xml_signature.

(** Lines 34-40: the statement returns [".xml"] or falls through. *)
Definition utf16_le_check (data : bytes) : option string :=
  if bytes_eqb (upto 2 data) bom_le
     && bytes_contains (b "<") (upto 20 data)
     && bytes_contains (b "?") (upto 20 data)
  then utf16_probe utf_16_le data
  else None.

(** Lines 43-49. *)
Definition utf16_be_check (data : bytes) : option string :=
  if bytes_eqb (upto 2 data) bom_be then utf16_probe utf_16_be data
  else None.

(** Line 52. *)
Definition html_check (data : bytes) : bool :=
  bytes_contains (b "<html") (bytes_lower (upto 1000 data))
  || bytes_contains (b "<!doctype") (bytes_lower (upto 1000 data)).

(** [detect_file_type], read from its last statement to its first: each
    definition is the function from one [if] to the end. *)

(** Lines 55-64: the JSON check and the default. *)
Definition detect_from_json (data : bytes) : outcome string :=
  match json_probe data with
  | Some ext => Returns ext
  | None => Returns ".bin"
  end.

(** Lines 51-64: the HTML check. *)
Definition detect_from_html (data : bytes) : outcome string :=
  if html_check data then Returns ".html" else detect_from_json data.

(** Lines 42-64: XML in UTF-16, big endian. *)
Definition detect_from_utf16_be (data : bytes) : outcome string :=
  match utf16_be_check data with
  | Some ext => Returns ext
  | None => detect_from_html data
  end.

(** Lines 33-64: XML in UTF-16, little endian. *)
Definition detect_from_utf16_le (data : bytes) : outcome string :=
  match utf16_le_check data with
  | Some ext => Returns ext
  | None => detect_from_utf16_be data
  end.

(** Lines 29-64: XML in UTF-8. *)
Definition detect_from_xml (data : bytes) : outcome string :=
  if xml_check data then Returns ".xml" else detect_from_utf16_le data.

(** Lines 25-64: the signature rules. *)
Definition detect_from_pdf (data : bytes) : outcome string :=
  if pdf_check data then Returns ".pdf" else detect_from_xml data.

(** [def detect_file_type(self, data)] *)
Definition detect_file_type (data : bytes) : outcome string :=
  if (List.length data <? 10)%nat then Returns ".bin"
  else detect_from_pdf data.

Section Extraction.

(** [ET.fromstring], the XML parser of the standard library. *)
Variable fromstring : text -> outcome ET.Element.

(** Lines 70-75: the text of the document. *)
Definition decode_document (xml_data : bytes) : outcome text :=
  if bytes_eqb (upto 2 xml_data) bom_le
  then decode utf_16_le strict xml_data
  else if bytes_eqb (upto 2 xml_data) bom_be
  then decode utf_16_be strict xml_data
  else decode utf_8 strict xml_data.

(** Lines 86-91: the checks on the text of the carrier element. *)
Definition decode_pdf (pdf_data : text) : outcome (option bytes) :=
  if str_startswith pdf_data (str "JVBERi") then
    pdf_bytes <- Base64.b64decode pdf_data ;;
    if bytes_startswith pdf_bytes pdf_signature
    then Returns (Some pdf_bytes)
    else Returns None
  else Returns None.

(** Line 83: [study_data is not None and study_data.text and
    study_data.text.strip()]; the value is the stripped text when the
    condition holds. *)
Definition carrier_text (study_data : option ET.Element) : option text :=
  match study_data with
  | None => None
  | Some e =>
    match ET.text_ e with
    | None => None
    | Some t =>
      if truthy t && truthy (str_strip t) then Some (str_strip t)
      else None
    end
  end.

(** Lines 69-93: the body of the [try] statement. *)
Definition extract_body (xml_data : bytes) : outcome (option bytes) :=
  xml_content <- decode_document xml_data ;;
  root <- fromstring xml_content ;;
  let study_data := ET.find_descendant (str "StudyData") root in
  match carrier_text study_data with
  | Some pdf_data => decode_pdf pdf_data
  | None => Returns None
  end.

(** [def extract_pdf_from_xml(self, xml_data)] *)
Definition extract_pdf_from_xml (xml_data : bytes)
  : outcome (option bytes) :=
  try_except (extract_body xml_data) (fun _ => Returns None).

(** [do_POST], lines 134-139: the detected extension, and the document
    extracted when the extension is [".xml"]. *)
Definition classify_and_extract (post_data : bytes)
  : outcome (string * option bytes) :=
  file_extension <- detect_file_type post_data ;;
  if String.eqb file_extension ".xml" then
    extracted_pdf <- extract_pdf_from_xml post_data ;;
    Returns (file_extension, extracted_pdf)
  else Returns (file_extension, None).

End Extraction.

(** [do_POST], line 143, and [do_PUT], line 239:
    [filename = f"{base_name}{file_extension}"] *)
Definition stored_filename (base_name : text) (file_extension : string)
  : text :=
  (base_name ++ str file_extension)%list.

(** [do_POST], lines 169-177, and [do_PUT], lines 255-263: the type shown in
    the log. *)
Definition display_type (filename : text) : string :=
  if str_endswith filename (str ".pdf") then "PDF"
  else if str_endswith filename (str ".xml") then "XML (ECG Data)"
  else if str_endswith filename (str ".html") then "HTML"
  else if str_endswith filename (str ".json") then "JSON"
  else "Unknown".




(** The class attributes [USERNAME] and [PASSWORD]. *)
Definition USERNAME : text := Eval cbv in str "admin".
Definition PASSWORD : text := Eval cbv in str "admin123".

(** [check_auth], lines 312-317: the credentials after the scheme. *)
Definition check_credentials (credentials : text) : outcome bool :=
  raw <- Base64.b64decode credentials ;;
  decoded <- decode utf_8 strict raw ;;
  match split_once 58 decoded with
  | (username, Some password) =>
    Returns (seq_eqb N.eqb username USERNAME
             && seq_eqb N.eqb password PASSWORD)
  | (_, None) => Raises ValueError            (* nothing to unpack into *)
  end.

(** [def check_auth(self)], on the value of
    [self.headers.get('Authorization')]. *)
Definition check_auth (auth_header : option text) : outcome bool :=
  match auth_header with
  | None => Returns false
  | Some h =>
    if negb (truthy h) then Returns false
    else
      try_except
        (match split_once 32 h with
         | (auth_type, Some credentials) =>
           if negb (seq_eqb N.eqb (str_lower auth_type) (str "basic"))
           then Returns false
           else check_credentials credentials
         | (_, None) => Raises ValueError
         end)
        (fun _ => Returns false)
  end.

End HttpServer.

(** ** [extract_ecg_pdf.py] *)

Module ExtractEcgPdf.

Import Py Codecs.

(** The files that can be read, by name. *)
Definition filesystem : Type := string -> option bytes.

(** [with open(xml_file, 'rb') as f: data = f.read()] *)
Definition read_file (fs : filesystem) (name : string) : outcome bytes :=
  match fs name with
  | Some data => Returns data
  | None => Raises OSError
  end.

Section Extraction.

Variable fromstring : text -> outcome ET.Element.

(** Lines 22-27. *)
Definition decode_document (data : bytes) : outcome text :=
  if bytes_eqb (upto 2 data) [xff; xfe]
  then decode utf_16_le strict data
  else if bytes_eqb (upto 2 data) [xfe; xff]
  then decode utf_16_be strict data
  else decode utf_8 strict data.

(** Lines 46-63: a [return] on every path. *)
Definition decode_pdf (pdf_data : text) : outcome (option bytes) :=
  if str_startswith pdf_data (str "JVBERi") then
    try_except
      (pdf_bytes <- Base64.b64decode pdf_data ;;
       if bytes_startswith pdf_bytes (b "%PDF")
       then Returns (Some pdf_bytes)
       else Returns None)
      (fun _ => Returns None)
  else Returns None.

(** Lines 20-66, on the contents of the file.  What the function prints is
    not modelled. *)
Definition extract_from_data (data : bytes) : outcome (option bytes) :=
  match decode_document data with
  | Raises _ => Returns None
  | Returns xml_content =>
    match fromstring xml_content with
    | Raises _ => Returns None
    | Returns root =>
      let study_data := ET.find_descendant (str "StudyData") root in
      match study_data with
      | None => Returns None
      | Some e =>
        match ET.text_ e with
        | None => Returns None
        | Some t =>
          if truthy t && truthy (str_strip t)
          then decode_pdf (str_strip t)
          else Returns None
        end
      end
    end
  end.

(** [def extract_pdf_from_ecg_xml(xml_file)] *)
Definition extract_pdf_from_ecg_xml (fs : filesystem) (xml_file : string)
  : outcome (option bytes) :=
  data <- read_file fs xml_file ;;
  extract_from_data data.

End Extraction.

End ExtractEcgPdf.

(** ** The specification's vocabulary *)

Module Spec.

Import Py Codecs.

(** The closed set of format tags, and the file extension by which
    [detect_file_type] names each of them. *)
Inductive FormatTag : Type := PDF | XML | HTML | JSON | Binary.

Definition extension (t : FormatTag) : string :=
  match t with
  | PDF => ".pdf"
  | XML => ".xml"
  | HTML => ".html"
  | JSON => ".json"
  | Binary => ".bin"
  end.

(** ASCII text encoded in UTF-16, without a byte-order mark. *)
Definition encode_utf16 (be : bool) (s : bytes) : bytes :=
  flat_map (fun c => if be then [x00; c] else [c; x00]) s.

Definition quote : bytes := [x22].

(** The XML declaration with version 1.0 and a double-quoted value. *)
Definition xml_declaration : bytes :=
  Eval cbv in
    (b "<?xml version=" ++ quote ++ b "1.0" ++ quote ++ b "?>")%list.




(** The seven bytes of the JSON value with one member, a : 1. *)
Definition json_value : bytes := [x7b; x22; x61; x22; x3a; x31; x7d].

Definition json_value_padded : bytes := Eval cbv in (json_value ++ b "   ")%list.

(** The same value after one byte that is not valid UTF-8. *)
Definition json_after_invalid_byte : bytes :=
  Eval cbv in (xff :: json_value ++ b "  ")%list.

(** The JSON condition as the specification words it: the prefix is decoded
    with invalid sequences replaced. *)
Definition spec_looks_like_json (data : bytes) : bool :=
  match decode utf_8 replace (upto 100 data) with
  | Returns t => HttpServer.looks_like_json t
  | Raises _ => false
  end.

(** A minimal document around the text of a [StudyData] element. *)
Definition wrap_study_data (payload : bytes) : bytes :=
  (xml_declaration ++ b "<Root><StudyData>" ++ payload
                   ++ b "</StudyData></Root>")%list.

Definition envelope (p : bytes) : bytes :=
  wrap_study_data (Base64.b64encode p).

(** The tree of [wrap_study_data payload]. *)
Definition wrapped_tree (payload : text) : ET.Element :=
  ET.Elem (str "Root") [] None
          [ET.Elem (str "StudyData") [] (ET.some_text payload) [] None]
          None.

(** [p] begins with [%PDF] and a fifth byte from space to slash, as every
    PDF header [%PDF-] does. *)
Definition pdf_header (p : bytes) : bool :=
  match p with
  | c1 :: c2 :: c3 :: c4 :: c5 :: _ =>
    bytes_eqb [c1; c2; c3; c4] HttpServer.pdf_signature
    && (32 <=? Byte.to_N c5)%N && (Byte.to_N c5 <=? 47)%N
  | _ => false
  end.

Definition sample_pdf : bytes := Eval cbv in b "%PDF-1.4 minimal pdf bytes".

(** The part of a tag after its namespace. *)
Fixpoint after_brace (t : text) : text :=
  match t with
  | [] => []
  | c :: t' => if (c =? 125)%N then t' else after_brace t'
  end.

Definition local_name (t : text) : text :=
  match t with
  | c :: t' => if (c =? 123)%N then after_brace t' else t
  | [] => []
  end.

(** The carrier element as the specification words it: the first element
    anywhere in the tree, the root included, named [StudyData] in whatever
    namespace. *)
Definition spec_find_carrier (root : ET.Element) : option ET.Element :=
  find (fun e => seq_eqb N.eqb (local_name (ET.tag e)) (str "StudyData"))
       (ET.iter root).

Definition root_carrier_document : bytes :=
  Eval cbv in b "<StudyData>JVBERi0xLjQ=</StudyData>".

Definition namespaced_document : bytes :=
  Eval cbv in
    b "<Root xmlns='urn:ecg'><StudyData>JVBERi0xLjQ=</StudyData></Root>".

Definition prefixed_document : bytes :=
  Eval cbv in
    b "<Root xmlns:e='urn:ecg'><e:StudyData>JVBERi0xLjQ=</e:StudyData></Root>".

(** A character of the base64 alphabet, or the padding character. *)
Definition is_base64_char (c : N) : bool :=
  match Base64.a2b c with
  | Some _ => true
  | None => (c =? 61)%N
  end.

(** The text has a character outside the base64 alphabet. *)
Definition outside_alphabet (t : text) : bool :=
  existsb (fun c => negb (is_base64_char c)) t.

(** The base64 text of [%PDF-1.4] with an exclamation mark in the middle. *)
Definition interrupted_document : bytes :=
  Eval cbv in b "<Root><StudyData>JVBERi0x!LjQ=</StudyData></Root>".

Definition interrupted_text : text := Eval cbv in str "JVBERi0x!LjQ=".

Definition malformed_document : bytes := Eval cbv in b "<Root><StudyData>".


Section Carrier.

Variable fromstring : text -> outcome ET.Element.

(** [data] is a document that decodes and parses, and [pdf_data] is the
    text of its carrier element with the surrounding whitespace removed,
    which leaves something. *)
Definition carrier_of (data : bytes) (pdf_data : text) : Prop :=
  exists t root e s,
    HttpServer.decode_document data = Returns t
    /\ fromstring t = Returns root
    /\ ET.find_descendant (str "StudyData") root = Some e
    /\ ET.text_ e = Some s
    /\ str_strip s <> []
    /\ pdf_data = str_strip s.

(** The failure branches of the extractor, one constructor each. *)
Inductive failure (data : bytes) : Prop :=
| decode_failure (e : exn) :
    HttpServer.decode_document data = Raises e -> failure data
| malformed_xml (t : text) (e : exn) :
    HttpServer.decode_document data = Returns t ->
    fromstring t = Raises e -> failure data
| no_carrier (t : text) (root : ET.Element) :
    HttpServer.decode_document data = Returns t ->
    fromstring t = Returns root ->
    ET.find_descendant (str "StudyData") root = None -> failure data
| blank_carrier (t : text) (root e : ET.Element) :
    HttpServer.decode_document data = Returns t ->
    fromstring t = Returns root ->
    ET.find_descendant (str "StudyData") root = Some e ->
    (forall s, ET.text_ e = Some s -> str_strip s = []) -> failure data
| wrong_prefix (pdf_data : text) :
    carrier_of data pdf_data ->
    str_startswith pdf_data (str "JVBERi") = false -> failure data
| base64_error (pdf_data : text) (e : exn) :
    carrier_of data pdf_data ->
    Base64.b64decode pdf_data = Raises e -> failure data
| not_a_pdf (pdf_data : text) (decoded : bytes) :
    carrier_of data pdf_data ->
    Base64.b64decode pdf_data = Returns decoded ->
    bytes_startswith decoded HttpServer.pdf_signature = false ->
    failure data.

End Carrier.

(** The last step of the extractor under its [try] statement: an exception
    of [decode_pdf] becomes the absent result. *)
Definition guarded (pdf_data : text) : outcome (option bytes) :=
  try_except (HttpServer.decode_pdf pdf_data) (fun _ => Returns None).

(** The base64 text of [%PDF-1.4] without its padding. *)
Definition unpadded_document : bytes :=
  Eval cbv in b "<Root><StudyData>JVBERi0xLjQ</StudyData></Root>".

Definition unpadded_text : text := Eval cbv in str "JVBERi0xLjQ".

(** The text before and after the payload of [wrap_study_data]. *)
Definition envelope_prefix : text :=
  Eval cbv in map Byte.to_N (xml_declaration ++ b "<Root><StudyData>")%list.

Definition envelope_suffix : text :=
  Eval cbv in str "</StudyData></Root>".

(** The two elements that are open when the parser reaches the payload. *)
Definition root_frame : ET.frame :=
  ET.Frame (str "Root") (str "Root") [] [(ET.xml_target, ET.xml_ns)] None [].

Definition carrier_frame : ET.frame :=
  ET.Frame (str "StudyData") (str "StudyData") []
           [(ET.xml_target, ET.xml_ns)] None [].

(** Character data that the parser takes as it stands. *)
Definition is_plain (c : N) : bool :=
  ET.is_char c && negb (c =? 60)%N && negb (c =? 38)%N.

(** Every byte, in increasing order. *)
Definition all_bytes : list byte :=
  map byte_of_N (map N.of_nat (seq 0 256)).

(** The bytes that XML and Python both take as white space and that the
    reference parser reads: space, tab and line feed. *)
Definition is_blank (x : byte) : bool :=
  Byte.eqb x x20 || Byte.eqb x x09 || Byte.eqb x x0a.

(** Chunks of text joined by line feeds. *)
Fixpoint join_lines (chunks : list bytes) : bytes :=
  match chunks with
  | [] => []
  | [c] => c
  | c :: chunks' => (c ++ x0a :: join_lines chunks')%list
  end.

(** The header value that a client sends for [admin] and [admin123]. *)
Definition basic_credentials : text := Eval cbv in str "YWRtaW46YWRtaW4xMjM=".

(** A file system with one file. *)
Definition single_file (name : string) (data : bytes)
  : ExtractEcgPdf.filesystem :=
  fun n => if String.eqb n name then Some data else None.

End Spec.


Unset Implicit Arguments.

Import HttpServer Spec.

Local Open Scope list_scope.
Local Open Scope N_scope.

(** Case analysis on the branches of a decoder. *)
Ltac split_decoder :=
  repeat match goal with
         | |- context [if ?c then _ else _] => destruct c
         | |- context [match ?l with [] => _ | _ :: _ => _ end] =>
           destruct l; simpl List.length in *
         end.

(** * Properties *)

(** ** Sequences *)

Section SequenceFacts.
Variable A : Type.
Variable eqb : A -> A -> bool.
Hypothesis eqb_spec : forall x y, eqb x y = true <-> x = y.

Lemma seq_eqb_eq (s t : list A) : Py.seq_eqb eqb s t = true <-> s = t.
Proof.
  revert t; induction s as [|x s IH]; intros [|y t]; simpl;
    try (split; [discriminate | congruence]); [tauto|].
  rewrite andb_true_iff, eqb_spec, IH.
  split; [intros [-> ->]; reflexivity | intros H; inversion H; auto].
Qed.

Lemma startswith_app (s p : list A) :
  Py.startswith eqb s p = true <-> exists r, s = (p ++ r)%list.
Proof.
  revert s; induction p as [|x p IH]; intros s; simpl.
  - split; [intros _; exists s; reflexivity | reflexivity].
  - destruct s as [|y s].
    + split; [discriminate | intros [r H]; discriminate].
    + rewrite andb_true_iff, eqb_spec, IH. split.
      * intros [-> [r ->]]. exists r. reflexivity.
      * intros [r H]. inversion H. split; [reflexivity | exists r; reflexivity].
Qed.

Lemma startswith_firstn (s p : list A) :
  Py.startswith eqb s p = true -> firstn (List.length p) s = p.
Proof.
  rewrite startswith_app. intros [r ->].
  rewrite firstn_app, Nat.sub_diag, firstn_all. simpl. apply app_nil_r.
Qed.

Lemma lstrip_none (sp : A -> bool) (x : A) (s : list A) :
  sp x = false -> Py.lstrip sp (x :: s) = x :: s.
Proof. intros H. simpl. rewrite H. reflexivity. Qed.

Lemma lstrip_app_keep (sp : A -> bool) (s r : list A) :
  Py.lstrip sp s <> [] -> Py.lstrip sp (s ++ r) = (Py.lstrip sp s ++ r)%list.
Proof.
  induction s as [|x s IH]; simpl; [congruence|].
  destruct (sp x); auto.
Qed.

(** Stripping changes nothing when neither end is in the class. *)
Lemma strip_clean (sp : A -> bool) (s : list A) :
  Forall (fun c => sp c = false) s -> Py.strip sp s = s.
Proof.
  intros H. unfold Py.strip, Py.rstrip.
  assert (L : forall l, Forall (fun c => sp c = false) l -> Py.lstrip sp l = l).
  { intros [|x l] Hl; [reflexivity|]. inversion Hl; subst.
    apply lstrip_none; assumption. }
  rewrite (L s H), L, rev_involutive; [reflexivity|].
  apply Forall_rev; assumption.
Qed.
End SequenceFacts.

Lemma byte_eqb_spec (x y : byte) : Byte.eqb x y = true <-> x = y.
Proof. split; [apply Byte.byte_dec_bl | apply Byte.byte_dec_lb]. Qed.

Lemma bytes_eqb_eq (s t : bytes) : Py.bytes_eqb s t = true <-> s = t.
Proof. apply seq_eqb_eq, byte_eqb_spec. Qed.

Lemma text_eqb_eq (s t : text) : Py.seq_eqb N.eqb s t = true <-> s = t.
Proof. apply seq_eqb_eq, N.eqb_eq. Qed.

Lemma bytes_startswith_firstn (s p : bytes) :
  Py.bytes_startswith s p = true -> firstn (List.length p) s = p.
Proof. apply startswith_firstn, byte_eqb_spec. Qed.

(** ** Decoding with [errors='ignore'] never raises *)


Lemma emit_returns {A} (a : A) (c : outcome (list A)) :
  (exists r, c = Returns r) -> exists r, emit a c = Returns r.
Proof. intros [r ->]. eexists. reflexivity. Qed.

Lemma utf8_decode_ignore_returns (s : bytes) :
  exists t, Codecs.utf8_decode Codecs.ignore s = Returns t.
Proof.
  remember (List.length s) as n eqn:Hn.
  revert s Hn. induction n as [n IH] using lt_wf_ind. intros s Hn. subst n.
  destruct s as [|b0 s1]; [eexists; reflexivity|].
  simpl List.length in IH.
  assert (R : forall r, (List.length r <= List.length s1)%nat ->
                        exists t, Codecs.utf8_decode Codecs.ignore r = Returns t).
  { intros r Hr. apply (IH (List.length r)); [lia | reflexivity]. }
  cbn [Codecs.utf8_decode]. cbv zeta.
  split_decoder; unfold Codecs.on_error;
    try (apply emit_returns); try (apply R; simpl; lia);
    try (eexists; reflexivity).
Qed.

Lemma utf16_decode_ignore_returns (be : bool) (s : bytes) :
  exists t, Codecs.utf16_decode be Codecs.ignore s = Returns t.
Proof.
  remember (List.length s) as n eqn:Hn.
  revert s Hn. induction n as [n IH] using lt_wf_ind. intros s Hn. subst n.
  destruct s as [|b0 [|b1 s2]]; try (eexists; reflexivity).
  simpl List.length in IH.
  assert (R : forall r, (List.length r <= List.length s2)%nat ->
                        exists t, Codecs.utf16_decode be Codecs.ignore r = Returns t).
  { intros r Hr. apply (IH (List.length r)); [lia | reflexivity]. }
  cbn [Codecs.utf16_decode]. cbv zeta.
  split_decoder; unfold Codecs.on_error;
    try (apply emit_returns); try (apply R; simpl; lia);
    try (eexists; reflexivity).
Qed.

Lemma decode_ignore_returns (enc : Codecs.encoding) (s : bytes) :
  exists t, Codecs.decode enc Codecs.ignore s = Returns t.
Proof.
  destruct enc; simpl;
    auto using utf8_decode_ignore_returns, utf16_decode_ignore_returns.
Qed.

(** ** The classifier, [detect_file_type] *)


(** Every path of the signature rules ends in a [return] of one of the five
    extensions. *)
Lemma detect_from_pdf_returns (data : bytes) :
  exists t, detect_from_pdf data = Returns (extension t).
Proof.
  unfold detect_from_pdf, detect_from_xml, detect_from_utf16_le,
    detect_from_utf16_be, detect_from_html, detect_from_json,
    utf16_le_check, utf16_be_check, json_probe, utf16_probe, try_pass, bind.
  repeat match goal with
         | |- context [if ?c then _ else _] => destruct c
         | |- context [match Codecs.decode ?e ?h ?s with _ => _ end] =>
           destruct (Codecs.decode e h s)
         end;
    first [ now exists PDF | now exists XML | now exists HTML
          | now exists JSON | now exists Binary ].
Qed.

Lemma extension_injective (t u : FormatTag) : extension t = extension u -> t = u.
Proof. destruct t, u; simpl; intros H; try reflexivity; discriminate H. Qed.

Lemma short_buffer_is_binary (data : bytes) :
  (List.length data < 10)%nat -> detect_file_type data = Returns ".bin".
Proof.
  intros H. unfold detect_file_type.
  apply Nat.ltb_lt in H. rewrite H. reflexivity.
Qed.

Lemma long_buffer_uses_rules (data : bytes) :
  (10 <= List.length data)%nat -> detect_file_type data = detect_from_pdf data.
Proof.
  intros H. unfold detect_file_type.
  apply Nat.ltb_ge in H. rewrite H. reflexivity.
Qed.

(** C4.  [detect_file_type] is total: on every byte sequence it returns, and
    what it returns is the extension of exactly one of the five format tags;
    a buffer of fewer than ten bytes is Binary at once, the three bytes
    00 01 02 among them. *)
Theorem detect_file_type_total (data : bytes) :
  (exists! t, detect_file_type data = Returns (extension t))
  /\ ((List.length data < 10)%nat ->
      detect_file_type data = Returns (extension Binary))
  /\ detect_file_type [x00; x01; x02] = Returns (extension Binary).
Proof.
  split; [|split; [apply short_buffer_is_binary | reflexivity]].
  assert (E : exists t, detect_file_type data = Returns (extension t)).
  { unfold detect_file_type. destruct (List.length data <? 10)%nat.
    - now exists Binary.
    - apply detect_from_pdf_returns. }
  destruct E as [t E]. exists t. split; [exact E|].
  intros u Hu. rewrite E in Hu. inversion Hu as [H].
  apply extension_injective; assumption.
Qed.

Lemma detect_file_type_total_witness :
  (List.length (b "%PDF-1.4") < 10)%nat
  /\ detect_file_type (b "%PDF-1.4") = Returns (extension Binary).
Proof.
  split; [simpl; lia|].
  apply (proj1 (proj2 (detect_file_type_total (b "%PDF-1.4")))).
  simpl; lia.
Defined.



(** C9, as the specification has it, fails: the seven bytes of the JSON value
    are below the minimum length, and the classifier answers Binary. *)
Lemma json_scenario_is_binary :
  List.length json_value = 7%nat
  /\ detect_file_type json_value = Returns (extension Binary)
  /\ detect_file_type json_value <> Returns (extension JSON).
Proof. repeat split. discriminate. Qed.

(** C9, amended.  The seven-byte JSON value is classified Binary, because it
    is shorter than ten bytes; followed by three spaces, which make it ten
    bytes long, it is classified JSON. *)
Theorem json_scenario_padded :
  detect_file_type json_value = Returns (extension Binary)
  /\ List.length json_value_padded = 10%nat
  /\ detect_file_type json_value_padded = Returns (extension JSON).
Proof. repeat split. Qed.

(** A buffer that opens with a byte-order mark matches neither the PDF nor the
    UTF-8 XML signature. *)
Lemma mark_is_no_signature (data : bytes) :
  Py.upto 2 data = bom_le \/ Py.upto 2 data = bom_be ->
  pdf_check data = false /\ xml_check data = false.
Proof.
  destruct data as [|x [|y r]]; simpl; intros [H|H]; try discriminate H;
    inversion H; subst; split; reflexivity.
Qed.


Lemma be_mark_is_not_le (data : bytes) :
  Py.upto 2 data = bom_be -> utf16_le_check data = None.
Proof.
  destruct data as [|x [|y r]]; simpl; intros H; try discriminate H.
  inversion H; subst. reflexivity.
Qed.





(** C8, as the specification has it, fails: here the JSON value follows a
    byte that is not valid UTF-8.  No earlier rule matches and the classifier
    answers JSON, although the prefix decoded with replacement characters
    starts with U+FFFD and not with a brace or a bracket. *)
Lemma json_rule_drops_invalid_bytes :
  (10 <= List.length json_after_invalid_byte)%nat
  /\ pdf_check json_after_invalid_byte = false
  /\ xml_check json_after_invalid_byte = false
  /\ utf16_le_check json_after_invalid_byte = None
  /\ utf16_be_check json_after_invalid_byte = None
  /\ html_check json_after_invalid_byte = false
  /\ detect_file_type json_after_invalid_byte = Returns ".json"
  /\ spec_looks_like_json json_after_invalid_byte = false.
Proof. split; [simpl; lia|]. repeat split. Qed.

(** C8, amended.  For a buffer of at least ten bytes that none of the PDF, XML
    and HTML rules matches, let [t] be its first 100 bytes decoded as UTF-8
    with invalid sequences dropped (not replaced); this decoding never
    raises.  The tag is JSON exactly when [t], stripped of leading and
    trailing whitespace, starts with a brace or a bracket. *)
Theorem json_rule (data : bytes) :
  (10 <= List.length data)%nat ->
  pdf_check data = false ->
  xml_check data = false ->
  utf16_le_check data = None ->
  utf16_be_check data = None ->
  html_check data = false ->
  exists t, Codecs.decode Codecs.utf_8 Codecs.ignore (Py.upto 100 data) = Returns t
            /\ (detect_file_type data = Returns ".json"
                <-> looks_like_json t = true).
Proof.
  intros Hlen Hp Hx Hle Hbe Hh.
  destruct (decode_ignore_returns Codecs.utf_8 (Py.upto 100 data)) as [t Ht].
  exists t. split; [exact Ht|].
  rewrite (long_buffer_uses_rules data Hlen).
  unfold detect_from_pdf, detect_from_xml, detect_from_utf16_le,
    detect_from_utf16_be, detect_from_html, detect_from_json, json_probe.
  rewrite Hp, Hx, Hle, Hbe, Hh, Ht. simpl.
  destruct (looks_like_json t); simpl; split; intros H;
    try reflexivity; discriminate H.
Qed.

Lemma json_rule_witness :
  exists t, Codecs.decode Codecs.utf_8 Codecs.ignore
                          (Py.upto 100 json_after_invalid_byte) = Returns t
            /\ (detect_file_type json_after_invalid_byte = Returns ".json"
                <-> looks_like_json t = true).
Proof.
  apply json_rule; [simpl; lia | reflexivity ..].
Defined.

(** ** The extractor *)

Section ExtractorFacts.

Variable fromstring : text -> outcome ET.Element.

Lemma guarded_returns (pdf_data : text) :
  exists r, guarded pdf_data = Returns r.
Proof.
  unfold guarded. destruct (decode_pdf pdf_data); simpl; eauto.
Qed.

(** The extractor after a successful parse. *)
Lemma extract_parsed (data : bytes) (t : text) (root : ET.Element) :
  decode_document data = Returns t ->
  fromstring t = Returns root ->
  extract_pdf_from_xml fromstring data
  = match carrier_text (ET.find_descendant (str "StudyData") root) with
    | Some pdf_data => guarded pdf_data
    | None => Returns None
    end.
Proof.
  intros Hd Hp. unfold extract_pdf_from_xml, extract_body, guarded.
  rewrite Hd. cbn [bind try_except]. rewrite Hp. cbn [bind try_except].
  destruct (carrier_text _); reflexivity.
Qed.

Lemma strip_nil : Py.str_strip [] = [].
Proof. reflexivity. Qed.

Lemma carrier_text_some (e : ET.Element) (s : text) :
  ET.text_ e = Some s -> Py.str_strip s <> [] ->
  carrier_text (Some e) = Some (Py.str_strip s).
Proof.
  intros Ht Hs. unfold carrier_text. rewrite Ht.
  destruct s as [|c s]; [elim Hs; reflexivity|].
  destruct (Py.str_strip (c :: s)); [elim Hs; reflexivity | reflexivity].
Qed.

Lemma carrier_text_blank (e : ET.Element) :
  (forall s, ET.text_ e = Some s -> Py.str_strip s = []) ->
  carrier_text (Some e) = None.
Proof.
  intros H. unfold carrier_text. destruct (ET.text_ e) as [s|]; [|reflexivity].
  rewrite (H s eq_refl). destruct s; reflexivity.
Qed.

Lemma extract_carrier (data : bytes) (pdf_data : text) :
  carrier_of fromstring data pdf_data -> extract_pdf_from_xml fromstring data = guarded pdf_data.
Proof.
  intros (t & root & e & s & Hd & Hp & Hf & Ht & Hs & ->).
  rewrite (extract_parsed data t root Hd Hp), Hf, (carrier_text_some e s Ht Hs).
  reflexivity.
Qed.

(** The extractor always returns. *)
Lemma extract_returns (data : bytes) : exists r, extract_pdf_from_xml fromstring data = Returns r.
Proof.
  unfold extract_pdf_from_xml.
  destruct (extract_body fromstring data); simpl; eauto.
Qed.

(** Whatever [decode_pdf] returns as present starts with the signature. *)
Lemma decode_pdf_verified (pdf_data : text) (doc : bytes) :
  decode_pdf pdf_data = Returns (Some doc) ->
  Py.bytes_startswith doc pdf_signature = true.
Proof.
  unfold decode_pdf.
  destruct (Py.str_startswith pdf_data (str "JVBERi")); [|discriminate].
  destruct (Base64.b64decode pdf_data) as [bs|]; cbn [bind try_except]; [|discriminate].
  destruct (Py.bytes_startswith bs pdf_signature) eqn:E; [|discriminate].
  intros H. inversion H; subst. exact E.
Qed.

Lemma extract_verified (data doc : bytes) :
  extract_pdf_from_xml fromstring data = Returns (Some doc) ->
  Py.bytes_startswith doc pdf_signature = true.
Proof.
  unfold extract_pdf_from_xml, extract_body.
  destruct (decode_document data) as [t|]; cbn [bind try_except]; [|discriminate].
  destruct (fromstring t) as [root|]; cbn [bind try_except]; [|discriminate].
  destruct (carrier_text _) as [pdf_data|]; [|discriminate].
  destruct (decode_pdf pdf_data) as [r|] eqn:E; cbn [bind try_except]; [|discriminate].
  intros H. inversion H; subst. apply (decode_pdf_verified _ _ E).
Qed.

(** The function of [extract_ecg_pdf.py], on the contents of the file, is
    the function of [http_server.py]. *)
Lemma extract_from_data_agrees (data : bytes) :
  ExtractEcgPdf.extract_from_data fromstring data = extract_pdf_from_xml fromstring data.
Proof.
  unfold ExtractEcgPdf.extract_from_data, extract_pdf_from_xml, extract_body.
  change (ExtractEcgPdf.decode_document data) with (decode_document data).
  destruct (decode_document data) as [t|]; cbn [bind try_except]; [|reflexivity].
  destruct (fromstring t) as [root|]; cbn [bind try_except]; [|reflexivity].
  unfold carrier_text.
  destruct (ET.find_descendant (str "StudyData") root) as [e|]; [|reflexivity].
  destruct (ET.text_ e) as [s|]; [|reflexivity].
  destruct (Py.truthy s && Py.truthy (Py.str_strip s)); [|reflexivity].
  unfold ExtractEcgPdf.decode_pdf, decode_pdf.
  change (b "%PDF") with pdf_signature.
  destruct (Py.str_startswith _ _); [|reflexivity].
  destruct (Base64.b64decode _) as [bs|]; cbn [bind try_except]; [|reflexivity].
  destruct (Py.bytes_startswith bs pdf_signature); reflexivity.
Qed.

Lemma extract_file_agrees (fs : ExtractEcgPdf.filesystem) (name : string)
      (data : bytes) :
  fs name = Some data ->
  ExtractEcgPdf.extract_pdf_from_ecg_xml fromstring fs name = extract_pdf_from_xml fromstring data.
Proof.
  intros H. unfold ExtractEcgPdf.extract_pdf_from_ecg_xml,
              ExtractEcgPdf.read_file.
  rewrite H. cbn [bind]. apply extract_from_data_agrees.
Qed.

Lemma failure_is_absent (data : bytes) :
  failure fromstring data -> extract_pdf_from_xml fromstring data = Returns None.
Proof.
  intros [e Hd | t e Hd Hp | t root Hd Hp Hf | t root e Hd Hp Hf Hb
         | pdf_data Hc Hs | pdf_data e Hc Hb | pdf_data bs Hc Hb Hs].
  - unfold extract_pdf_from_xml, extract_body. rewrite Hd. reflexivity.
  - unfold extract_pdf_from_xml, extract_body. rewrite Hd. cbn [bind try_except].
    rewrite Hp. reflexivity.
  - rewrite (extract_parsed data t root Hd Hp), Hf. reflexivity.
  - rewrite (extract_parsed data t root Hd Hp), Hf, (carrier_text_blank e Hb).
    reflexivity.
  - rewrite (extract_carrier data pdf_data Hc). unfold guarded, decode_pdf.
    rewrite Hs. reflexivity.
  - rewrite (extract_carrier data pdf_data Hc). unfold guarded, decode_pdf.
    destruct (Py.str_startswith _ _); [|reflexivity].
    rewrite Hb. reflexivity.
  - rewrite (extract_carrier data pdf_data Hc). unfold guarded, decode_pdf.
    destruct (Py.str_startswith _ _); [|reflexivity].
    rewrite Hb. cbn [bind try_except]. rewrite Hs. reflexivity.
Qed.

End ExtractorFacts.

(** C2.  The extractor degrades gracefully: on every input it returns (no
    exception leaves it), and on every failure branch (the bytes do not
    decode, the text is not well-formed XML, no [StudyData] element is found,
    its text is missing, empty or blank, the trimmed text does not start with
    [JVBERi], base64 decoding raises, or the decoded bytes do not start with
    [%PDF]) what it returns is the absent result. *)
Theorem extractor_degrades_gracefully
        (fromstring : text -> outcome ET.Element) (data : bytes) :
  (exists r, extract_pdf_from_xml fromstring data = Returns r)
  /\ (failure fromstring data ->
      extract_pdf_from_xml fromstring data = Returns None).
Proof.
  split; [apply extract_returns | apply failure_is_absent].
Qed.

Lemma extractor_degrades_gracefully_witness :
  failure ET.fromstring malformed_document
  /\ extract_pdf_from_xml ET.fromstring malformed_document = Returns None.
Proof.
  assert (F : failure ET.fromstring malformed_document).
  { eapply malformed_xml; reflexivity. }
  split; [exact F|].
  apply (proj2 (extractor_degrades_gracefully ET.fromstring malformed_document)).
  exact F.
Defined.

(** C3.  Whatever either extractor returns as a present document starts with
    the four bytes of the PDF signature. *)
Theorem extracted_document_is_verified
        (fromstring : text -> outcome ET.Element) (doc : bytes) :
  (forall data,
      extract_pdf_from_xml fromstring data = Returns (Some doc) ->
      Py.upto 4 doc = pdf_signature)
  /\ (forall fs name,
         ExtractEcgPdf.extract_pdf_from_ecg_xml fromstring fs name
         = Returns (Some doc) ->
         Py.upto 4 doc = pdf_signature).
Proof.
  split.
  - intros data H. apply extract_verified in H.
    apply (bytes_startswith_firstn doc pdf_signature H).
  - intros fs name. unfold ExtractEcgPdf.extract_pdf_from_ecg_xml,
                     ExtractEcgPdf.read_file.
    destruct (fs name) as [data|]; cbn [bind try_except]; [|discriminate].
    rewrite extract_from_data_agrees. intros H. apply extract_verified in H.
    apply (bytes_startswith_firstn doc pdf_signature H).
Qed.

Lemma extracted_document_is_verified_witness :
  extract_pdf_from_xml ET.fromstring (envelope sample_pdf)
  = Returns (Some sample_pdf)
  /\ Py.upto 4 sample_pdf = pdf_signature.
Proof.
  assert (E : extract_pdf_from_xml ET.fromstring (envelope sample_pdf)
              = Returns (Some sample_pdf)) by (vm_compute; reflexivity).
  split; [exact E|].
  apply (proj1 (extracted_document_is_verified ET.fromstring sample_pdf)
               (envelope sample_pdf)).
  exact E.
Defined.

(** ** The search for the carrier element *)

Lemma find_first {A} (f : A -> bool) (l : list A) (x : A) :
  find f l = Some x ->
  exists before after,
    l = (before ++ x :: after)%list /\ f x = true
    /\ Forall (fun y => f y = false) before.
Proof.
  induction l as [|y l IH]; simpl; [discriminate|].
  destruct (f y) eqn:E.
  - intros H. inversion H; subst. exists [], l. auto.
  - intros H. destruct (IH H) as (l1 & l2 & -> & Hx & Hall).
    exists (y :: l1), l2. auto.
Qed.

Lemma find_none {A} (f : A -> bool) (l : list A) :
  find f l = None -> Forall (fun y => f y = false) l.
Proof.
  induction l as [|y l IH]; simpl; [constructor|].
  destruct (f y) eqn:E; [discriminate|]. auto.
Qed.

Lemma tag_is_true (name : text) (e : ET.Element) :
  ET.tag_is name e = true <-> ET.tag e = name.
Proof. apply text_eqb_eq. Qed.

Lemma tag_is_false (name : text) (e : ET.Element) :
  ET.tag_is name e = false <-> ET.tag e <> name.
Proof.
  rewrite <- tag_is_true. destruct (ET.tag_is name e); split; congruence.
Qed.

(** C6, as the specification has it, fails.  In each of the three documents an
    element named [StudyData] exists in the tree (it is the root, or it lies
    in a default or in a prefixed namespace) and holds the base64 text of a
    PDF header, which the last step would accept; the search of the extractor
    finds no element and the result is absent. *)
Lemma carrier_search_misses_root_and_namespaces :
  Forall
    (fun data =>
       exists t root e s,
         decode_document data = Returns t
         /\ ET.fromstring t = Returns root
         /\ spec_find_carrier root = Some e
         /\ ET.text_ e = Some s
         /\ guarded (Py.str_strip s) = Returns (Some (b "%PDF-1.4"))
         /\ ET.find_descendant (str "StudyData") root = None
         /\ extract_pdf_from_xml ET.fromstring data = Returns None)
    [root_carrier_document; namespaced_document; prefixed_document].
Proof.
  assert (one : forall data t root e s,
             decode_document data = Returns t ->
             ET.fromstring t = Returns root ->
             spec_find_carrier root = Some e ->
             ET.text_ e = Some s ->
             guarded (Py.str_strip s) = Returns (Some (b "%PDF-1.4")) ->
             ET.find_descendant (str "StudyData") root = None ->
             extract_pdf_from_xml ET.fromstring data = Returns None ->
             exists t root e s,
               decode_document data = Returns t
               /\ ET.fromstring t = Returns root
               /\ spec_find_carrier root = Some e
               /\ ET.text_ e = Some s
               /\ guarded (Py.str_strip s) = Returns (Some (b "%PDF-1.4"))
               /\ ET.find_descendant (str "StudyData") root = None
               /\ extract_pdf_from_xml ET.fromstring data = Returns None).
  { intros data t root e s H1 H2 H3 H4 H5 H6 H7.
    exists t, root, e, s. tauto. }
  apply Forall_cons; [|apply Forall_cons; [|apply Forall_cons; [|apply Forall_nil]]];
    eapply one; vm_compute; reflexivity.
Qed.

(** C6, amended.  For every input that decodes and parses, with root [root]:
    the search looks at the elements strictly below [root] in document order,
    [root] itself excluded, and takes the first whose tag is exactly
    [StudyData] (an element in a namespace has the tag [{uri}StudyData] and
    is passed over).  The result is absent at this step when no such element
    exists, or when the text of the element found is missing, empty or
    blank, and only then: otherwise the trimmed text goes to the next
    step. *)
Theorem carrier_search (fromstring : text -> outcome ET.Element)
        (data : bytes) (t : text) (root : ET.Element) :
  decode_document data = Returns t ->
  fromstring t = Returns root ->
  (forall e, ET.find_descendant (str "StudyData") root = Some e ->
             exists before after,
               flat_map ET.iter (ET.children root)
               = (before ++ e :: after)%list
               /\ ET.tag e = str "StudyData"
               /\ Forall (fun x => ET.tag x <> str "StudyData") before)
  /\ (ET.find_descendant (str "StudyData") root = None ->
      Forall (fun x => ET.tag x <> str "StudyData")
             (flat_map ET.iter (ET.children root)))
  /\ extract_pdf_from_xml fromstring data
     = match ET.find_descendant (str "StudyData") root with
       | None => Returns None
       | Some e =>
         match ET.text_ e with
         | None => Returns None
         | Some s =>
           match Py.str_strip s with
           | [] => Returns None
           | _ :: _ => guarded (Py.str_strip s)
           end
         end
       end.
Proof.
  intros Hd Hp. split; [|split].
  - intros e H. apply find_first in H.
    destruct H as (l1 & l2 & Hl & He & Hall).
    exists l1, l2. split; [exact Hl|]. split; [apply tag_is_true; exact He|].
    eapply Forall_impl; [|exact Hall]. intros x. apply tag_is_false.
  - intros H. apply find_none in H.
    eapply Forall_impl; [|exact H]. intros x. apply tag_is_false.
  - rewrite (extract_parsed fromstring data t root Hd Hp).
    unfold carrier_text.
    destruct (ET.find_descendant (str "StudyData") root) as [e|]; [|reflexivity].
    destruct (ET.text_ e) as [s|]; [|reflexivity].
    destruct s as [|c s]; [reflexivity|].
    destruct (Py.str_strip (c :: s)); reflexivity.
Qed.

Lemma carrier_search_witness :
  exists e,
    ET.find_descendant (str "StudyData") (wrapped_tree (str "JVBERi0xLjQ="))
    = Some e
    /\ ET.tag e = str "StudyData"
    /\ extract_pdf_from_xml ET.fromstring (envelope (b "%PDF-1.4"))
       = guarded (str "JVBERi0xLjQ=").
Proof.
  assert (Hd : decode_document (envelope (b "%PDF-1.4"))
               = Returns (map Byte.to_N (envelope (b "%PDF-1.4"))))
    by (vm_compute; reflexivity).
  assert (Hp : ET.fromstring (map Byte.to_N (envelope (b "%PDF-1.4")))
               = Returns (wrapped_tree (str "JVBERi0xLjQ=")))
    by (vm_compute; reflexivity).
  destruct (carrier_search ET.fromstring _ _ _ Hd Hp) as (H1 & _ & H3).
  eexists. split; [vm_compute; reflexivity|]. split; [reflexivity|].
  rewrite H3. vm_compute. reflexivity.
Defined.

(** ** Base64 *)

Lemma to_N_byte_of_N (c : N) : c < 256 -> Byte.to_N (byte_of_N c) = c.
Proof.
  intros H. unfold byte_of_N. rewrite N.mod_small by exact H.
  destruct (Byte.of_N c) as [x|] eqn:E.
  - apply Byte.to_of_N; exact E.
  - apply Byte.of_N_None_iff in E. lia.
Qed.

Lemma byte_of_N_to_N (x : byte) : byte_of_N (Byte.to_N x) = x.
Proof.
  unfold byte_of_N. pose proof (Byte.to_N_bounded x) as H.
  rewrite N.mod_small by lia. rewrite Byte.of_to_N. reflexivity.
Qed.

Lemma a2b_some_ascii (c v : N) : Base64.a2b c = Some v -> c < 128 /\ c <> 61.
Proof.
  unfold Base64.a2b.
  repeat match goal with
         | |- context [if ?x then _ else _] => destruct x eqn:?
         end;
    try discriminate; intros _;
    repeat match goal with
           | H : andb _ _ = true |- _ => apply andb_true_iff in H; destruct H
           | H : N.leb _ _ = true |- _ => apply N.leb_le in H
           | H : N.eqb _ _ = true |- _ => apply N.eqb_eq in H
           end; lia.
Qed.

Lemma encode_ascii_non_ascii (t : text) (c : N) :
  In c t -> 128 <= c -> Base64.encode_ascii t = Raises ValueError.
Proof.
  intros Hin Hc. induction t as [|d t IH]; [contradiction|].
  simpl. destruct (d <? 128) eqn:E; [|reflexivity].
  destruct Hin as [ -> | Hin ].
  - apply N.ltb_lt in E. lia.
  - rewrite (IH Hin). reflexivity.
Qed.

Lemma encode_ascii_app (t1 t2 : text) :
  Base64.encode_ascii (t1 ++ t2)
  = (d1 <- Base64.encode_ascii t1 ;;
     d2 <- Base64.encode_ascii t2 ;; Returns (d1 ++ d2)%list).
Proof.
  induction t1 as [|c t1 IH]; simpl.
  - destruct (Base64.encode_ascii t2); reflexivity.
  - destruct (c <? 128); [|reflexivity].
    rewrite IH. unfold emit.
    destruct (Base64.encode_ascii t1); [|reflexivity].
    destruct (Base64.encode_ascii t2); reflexivity.
Qed.

Lemma encode_ascii_bytes (s : bytes) :
  Forall (fun x => Byte.to_N x < 128) s ->
  Base64.encode_ascii (map Byte.to_N s) = Returns s.
Proof.
  induction 1 as [|x s Hx Hs IH]; [reflexivity|].
  simpl. apply N.ltb_lt in Hx. rewrite Hx, IH. unfold emit, bind.
  rewrite byte_of_N_to_N. reflexivity.
Qed.

(** A character outside the alphabet is skipped by the decoding loop. *)
Lemma a2b_loop_skip (c : byte) (s1 s2 : bytes) :
  Byte.eqb c Base64.pad = false ->
  Base64.a2b (Byte.to_N c) = None ->
  forall q l p,
    Base64.a2b_loop (s1 ++ c :: s2) q l p = Base64.a2b_loop (s1 ++ s2) q l p.
Proof.
  intros Hp Ha. induction s1 as [|x s1 IH]; intros q l p.
  - simpl. rewrite Hp, Ha. reflexivity.
  - cbn [app Base64.a2b_loop].
    repeat match goal with
           | |- context [if ?x then _ else _] => destruct x
           | |- context [match Base64.a2b ?x with _ => _ end] =>
             destruct (Base64.a2b x)
           end;
      rewrite ?IH; reflexivity.
Qed.

(** An ASCII character outside the alphabet does not change what
    [b64decode] returns or raises. *)
Lemma b64decode_skips (t1 t2 : text) (c : N) :
  c < 128 -> is_base64_char c = false ->
  Base64.b64decode (t1 ++ c :: t2) = Base64.b64decode (t1 ++ t2).
Proof.
  intros Hc Hb. unfold Base64.b64decode. rewrite !encode_ascii_app.
  destruct (Base64.encode_ascii t1) as [d1|]; [|reflexivity].
  cbn [bind Base64.encode_ascii]. apply N.ltb_lt in Hc. rewrite Hc.
  unfold emit. destruct (Base64.encode_ascii t2) as [d2|]; [|reflexivity].
  cbn [bind]. unfold Base64.a2b_base64.
  apply N.ltb_lt in Hc.
  unfold is_base64_char in Hb.
  apply a2b_loop_skip.
  - destruct (Byte.eqb (byte_of_N c) Base64.pad) eqn:E; [|reflexivity].
    apply byte_eqb_spec in E.
    assert (Byte.to_N (byte_of_N c) = 61) by (rewrite E; reflexivity).
    rewrite to_N_byte_of_N in H by lia. subst c.
    discriminate Hb.
  - rewrite to_N_byte_of_N by lia.
    destruct (Base64.a2b c); [discriminate Hb | reflexivity].
Qed.

(** Characters of the alphabet that end inside a group of four. *)
Lemma a2b_loop_incomplete (s : bytes) :
  Forall (fun c => Base64.a2b (Byte.to_N c) <> None) s ->
  forall q l p,
    q < 4 ->
    (forall k, (N.to_nat q + List.length s <> 4 * k)%nat) ->
    Base64.a2b_loop s q l p = Raises BinasciiError.
Proof.
  induction 1 as [|c s Hc Hs IH]; intros q l p Hq Hk.
  - simpl. destruct (q =? 0) eqn:E; [|reflexivity].
    apply N.eqb_eq in E. subst q. elim (Hk 0%nat). reflexivity.
  - cbn [Base64.a2b_loop].
    destruct (Byte.eqb c Base64.pad) eqn:Ep.
    { apply byte_eqb_spec in Ep. subst c. elim Hc. reflexivity. }
    destruct (Base64.a2b (Byte.to_N c)) as [v|]; [|elim Hc; reflexivity].
    simpl List.length in Hk.
    assert (Hcase : q = 0 \/ q = 1 \/ q = 2 \/ q = 3) by lia.
    destruct Hcase as [ -> | [ -> | [ -> | -> ] ] ]; cbn [N.eqb Pos.eqb];
      rewrite IH; try reflexivity; try lia;
        intros k Hc'.
    + apply (Hk k). simpl in *. lia.
    + apply (Hk k). simpl in *. lia.
    + apply (Hk k). simpl in *. lia.
    + apply (Hk (S k)). simpl in *. lia.
Qed.

Lemma encode_ascii_alphabet (t : text) :
  Forall (fun c => Base64.a2b c <> None) t ->
  Base64.encode_ascii t = Returns (map byte_of_N t)
  /\ Forall (fun x => Base64.a2b (Byte.to_N x) <> None) (map byte_of_N t).
Proof.
  induction 1 as [|c t Hc Ht [IH1 IH2]]; [split; [reflexivity | constructor]|].
  destruct (Base64.a2b c) as [v|] eqn:E; [|elim Hc; reflexivity].
  destruct (a2b_some_ascii c v E) as [Hlt _].
  split.
  - simpl. apply N.ltb_lt in Hlt. rewrite Hlt, IH1. reflexivity.
  - simpl. constructor; [|exact IH2].
    rewrite to_N_byte_of_N by lia. rewrite E. discriminate.
Qed.

Lemma b64decode_incomplete (t : text) :
  Forall (fun c => Base64.a2b c <> None) t ->
  (List.length t mod 4 <> 0)%nat ->
  Base64.b64decode t = Raises BinasciiError.
Proof.
  intros Ht Hm. destruct (encode_ascii_alphabet t Ht) as [He Hf].
  unfold Base64.b64decode. rewrite He. cbn [bind].
  unfold Base64.a2b_base64. apply a2b_loop_incomplete; [exact Hf | lia |].
  intros k Hk. apply Hm. rewrite length_map in Hk.
  change (N.to_nat 0) with 0%nat in Hk. rewrite Nat.add_0_l in Hk.
  rewrite Hk, Nat.mul_comm. apply Nat.Div0.mod_mul.
Qed.

Lemma b64decode_non_ascii (t : text) (c : N) :
  In c t -> 128 <= c -> Base64.b64decode t = Raises ValueError.
Proof.
  intros Hin Hc. unfold Base64.b64decode.
  rewrite (encode_ascii_non_ascii t c Hin Hc). reflexivity.
Qed.

(** C7, as the specification has it, fails: the trimmed text starts with
    [JVBERi] and has a character outside the base64 alphabet, yet nothing
    raises; the character is skipped and the document is extracted. *)
Lemma base64_noise_is_skipped :
  carrier_of ET.fromstring interrupted_document interrupted_text
  /\ Py.str_startswith interrupted_text (str "JVBERi") = true
  /\ outside_alphabet interrupted_text = true
  /\ Base64.b64decode interrupted_text = Returns (b "%PDF-1.4")
  /\ extract_pdf_from_xml ET.fromstring interrupted_document
     = Returns (Some (b "%PDF-1.4")).
Proof.
  split; [|repeat split].
  do 4 eexists.
  split; [vm_compute; reflexivity|].
  split; [vm_compute; reflexivity|].
  split; [vm_compute; reflexivity|].
  split; [vm_compute; reflexivity|].
  split; [vm_compute; discriminate | vm_compute; reflexivity].
Qed.

(** C7, amended.  For every XML input whose [StudyData] text, trimmed, starts
    with [JVBERi]: if [base64.b64decode] raises on that text, both extractors
    return the absent result.  It raises when the text has a character that
    is not ASCII, and when the text consists of characters of the alphabet
    whose number is not a multiple of four (the padding is missing).  An
    ASCII character outside the alphabet raises nothing: it is skipped, and
    the text decodes as it does without that character. *)
Theorem base64_error_is_absent :
  (forall (fromstring : text -> outcome ET.Element) (data : bytes)
          (pdf_data : text) (e : exn),
      carrier_of fromstring data pdf_data ->
      Py.str_startswith pdf_data (str "JVBERi") = true ->
      Base64.b64decode pdf_data = Raises e ->
      extract_pdf_from_xml fromstring data = Returns None
      /\ forall fs name,
          fs name = Some data ->
          ExtractEcgPdf.extract_pdf_from_ecg_xml fromstring fs name
          = Returns None)
  /\ (forall (t : text) (c : N),
         In c t -> 128 <= c -> Base64.b64decode t = Raises ValueError)
  /\ (forall t : text,
         Forall (fun c => Base64.a2b c <> None) t ->
         (List.length t mod 4 <> 0)%nat ->
         Base64.b64decode t = Raises BinasciiError)
  /\ (forall (t1 t2 : text) (c : N),
         c < 128 -> is_base64_char c = false ->
         Base64.b64decode (t1 ++ c :: t2) = Base64.b64decode (t1 ++ t2)).
Proof.
  split; [|split; [|split]].
  - intros fromstring data pdf_data e Hc Hs Hb.
    assert (E : extract_pdf_from_xml fromstring data = Returns None).
    { apply failure_is_absent. eapply base64_error; eassumption. }
    split; [exact E|].
    intros fs name Hf. rewrite (extract_file_agrees fromstring fs name data Hf).
    exact E.
  - apply b64decode_non_ascii.
  - apply b64decode_incomplete.
  - apply b64decode_skips.
Qed.

Lemma base64_error_is_absent_witness :
  carrier_of ET.fromstring unpadded_document unpadded_text
  /\ Py.str_startswith unpadded_text (str "JVBERi") = true
  /\ Base64.b64decode unpadded_text = Raises BinasciiError
  /\ extract_pdf_from_xml ET.fromstring unpadded_document = Returns None.
Proof.
  assert (C : carrier_of ET.fromstring unpadded_document unpadded_text).
  { do 4 eexists.
    split; [vm_compute; reflexivity|].
    split; [vm_compute; reflexivity|].
    split; [vm_compute; reflexivity|].
    split; [vm_compute; reflexivity|].
    split; [vm_compute; discriminate | vm_compute; reflexivity]. }
  assert (S : Py.str_startswith unpadded_text (str "JVBERi") = true)
    by reflexivity.
  assert (B : Base64.b64decode unpadded_text = Raises BinasciiError)
    by (vm_compute; reflexivity).
  split; [exact C|]. split; [exact S|]. split; [exact B|].
  exact (proj1 (proj1 base64_error_is_absent ET.fromstring unpadded_document
                      unpadded_text BinasciiError C S B)).
Defined.

(** ** The base64 round trip *)

Lemma all_bytes_complete (x : byte) : In x all_bytes.
Proof.
  unfold all_bytes. rewrite <- (byte_of_N_to_N x), Byte.to_N_via_nat.
  apply in_map, in_map, in_seq.
  pose proof (Byte.to_nat_bounded x). lia.
Qed.

Lemma for_all_bytes (P : byte -> bool) :
  forallb P all_bytes = true -> forall x, P x = true.
Proof.
  intros H x. apply (proj1 (forallb_forall P all_bytes) H), all_bytes_complete.
Qed.

Lemma for_all_byte_pairs (P : byte -> byte -> bool) :
  forallb (fun x => forallb (P x) all_bytes) all_bytes = true ->
  forall x y, P x y = true.
Proof.
  intros H x y.
  apply (for_all_bytes (P x)).
  apply (for_all_bytes (fun x => forallb (P x) all_bytes) H).
Qed.

Lemma for_all_sextets (P : N -> bool) :
  forallb P (map N.of_nat (seq 0 64)) = true -> forall v, v < 64 -> P v = true.
Proof.
  intros H v Hv. apply (proj1 (forallb_forall P _) H).
  rewrite <- (N2Nat.id v). apply in_map, in_seq. lia.
Qed.

Lemma b2a_is_data (v : N) :
  v < 64 ->
  Byte.eqb (Base64.b2a v) Base64.pad = false
  /\ Base64.a2b (Byte.to_N (Base64.b2a v)) = Some v.
Proof.
  intros Hv.
  pose proof (for_all_sextets
                (fun v => negb (Byte.eqb (Base64.b2a v) Base64.pad)
                          && match Base64.a2b (Byte.to_N (Base64.b2a v)) with
                             | Some w => w =? v
                             | None => false
                             end)
                eq_refl v Hv) as H.
  apply andb_true_iff in H. destruct H as [H1 H2].
  split; [apply negb_true_iff; exact H1|].
  destruct (Base64.a2b (Byte.to_N (Base64.b2a v))) as [w|]; [|discriminate].
  apply N.eqb_eq in H2. subst w. reflexivity.
Qed.

(** The four positions of a character of the alphabet in its group. *)
Lemma a2b_loop_first (v : N) (s : bytes) (l p : N) :
  v < 64 ->
  Base64.a2b_loop (Base64.b2a v :: s) 0 l p = Base64.a2b_loop s 1 v 0.
Proof.
  intros Hv. destruct (b2a_is_data v Hv) as [H1 H2].
  cbn [Base64.a2b_loop]. rewrite H1, H2. reflexivity.
Qed.

Lemma a2b_loop_second (v : N) (s : bytes) (l p : N) :
  v < 64 ->
  Base64.a2b_loop (Base64.b2a v :: s) 1 l p
  = emit (byte_of_N (N.lor (N.shiftl l 2) (N.shiftr v 4)))
         (Base64.a2b_loop s 2 (N.land v 15) 0).
Proof.
  intros Hv. destruct (b2a_is_data v Hv) as [H1 H2].
  cbn [Base64.a2b_loop]. rewrite H1, H2. reflexivity.
Qed.

Lemma a2b_loop_third (v : N) (s : bytes) (l p : N) :
  v < 64 ->
  Base64.a2b_loop (Base64.b2a v :: s) 2 l p
  = emit (byte_of_N (N.lor (N.shiftl l 4) (N.shiftr v 2)))
         (Base64.a2b_loop s 3 (N.land v 3) 0).
Proof.
  intros Hv. destruct (b2a_is_data v Hv) as [H1 H2].
  cbn [Base64.a2b_loop]. rewrite H1, H2. reflexivity.
Qed.

Lemma a2b_loop_fourth (v : N) (s : bytes) (l p : N) :
  v < 64 ->
  Base64.a2b_loop (Base64.b2a v :: s) 3 l p
  = emit (byte_of_N (N.lor (N.shiftl l 6) v)) (Base64.a2b_loop s 0 0 0).
Proof.
  intros Hv. destruct (b2a_is_data v Hv) as [H1 H2].
  cbn [Base64.a2b_loop]. rewrite H1, H2. reflexivity.
Qed.

(** The six-bit values that [b64encode] writes, and the bytes that the
    decoding loop puts together from them.  Each fact involves at most two
    bytes and is checked on all of them. *)
Lemma sextets_of_one (x : byte) :
  let X := Byte.to_N x in
  N.shiftr X 2 < 64
  /\ N.shiftl (N.land X 3) 4 < 64
  /\ N.land X 63 < 64
  /\ N.shiftl (N.land X 15) 2 < 64
  /\ byte_of_N (N.lor (N.shiftl (N.shiftr X 2) 2)
                      (N.shiftr (N.shiftl (N.land X 3) 4) 4)) = x
  /\ N.shiftr (N.shiftl (N.land X 15) 2) 2 = N.land X 15
  /\ byte_of_N (N.lor (N.shiftl (N.shiftr X 4) 4) (N.land X 15)) = x
  /\ byte_of_N (N.lor (N.shiftl (N.shiftr X 6) 6) (N.land X 63)) = x.
Proof.
  pose proof (for_all_bytes
    (fun x =>
       let X := Byte.to_N x in
       (N.shiftr X 2 <? 64)
       && (N.shiftl (N.land X 3) 4 <? 64)
       && (N.land X 63 <? 64)
       && (N.shiftl (N.land X 15) 2 <? 64)
       && Byte.eqb (byte_of_N (N.lor (N.shiftl (N.shiftr X 2) 2)
                              (N.shiftr (N.shiftl (N.land X 3) 4) 4))) x
       && (N.shiftr (N.shiftl (N.land X 15) 2) 2 =? N.land X 15)
       && Byte.eqb (byte_of_N (N.lor (N.shiftl (N.shiftr X 4) 4)
                              (N.land X 15))) x
       && Byte.eqb (byte_of_N (N.lor (N.shiftl (N.shiftr X 6) 6)
                              (N.land X 63))) x)
    ltac:(vm_compute; reflexivity) x) as H.
  cbv zeta in *.
  repeat (apply andb_true_iff in H; destruct H as [H ?]).
  repeat match goal with
         | H : N.ltb _ _ = true |- _ => apply N.ltb_lt in H
         | H : N.eqb _ _ = true |- _ => apply N.eqb_eq in H
         | H : Byte.eqb _ _ = true |- _ => apply byte_eqb_spec in H
         end.
  repeat split; assumption.
Qed.

Lemma sextets_of_two (x y : byte) :
  let X := Byte.to_N x in
  let Y := Byte.to_N y in
  let V := N.lor (N.shiftl (N.land X 3) 4) (N.shiftr Y 4) in
  let W := N.lor (N.shiftl (N.land X 15) 2) (N.shiftr Y 6) in
  V < 64
  /\ W < 64
  /\ byte_of_N (N.lor (N.shiftl (N.shiftr X 2) 2) (N.shiftr V 4)) = x
  /\ N.land V 15 = N.shiftr Y 4
  /\ N.shiftr W 2 = N.land X 15
  /\ N.land W 3 = N.shiftr Y 6.
Proof.
  pose proof (for_all_byte_pairs
    (fun x y =>
       let X := Byte.to_N x in
       let Y := Byte.to_N y in
       let V := N.lor (N.shiftl (N.land X 3) 4) (N.shiftr Y 4) in
       let W := N.lor (N.shiftl (N.land X 15) 2) (N.shiftr Y 6) in
       (V <? 64) && (W <? 64)
       && Byte.eqb (byte_of_N (N.lor (N.shiftl (N.shiftr X 2) 2)
                              (N.shiftr V 4))) x
       && (N.land V 15 =? N.shiftr Y 4)
       && (N.shiftr W 2 =? N.land X 15)
       && (N.land W 3 =? N.shiftr Y 6))
    ltac:(vm_compute; reflexivity) x y) as H.
  cbv zeta in *.
  repeat (apply andb_true_iff in H; destruct H as [H ?]).
  repeat match goal with
         | H : N.ltb _ _ = true |- _ => apply N.ltb_lt in H
         | H : N.eqb _ _ = true |- _ => apply N.eqb_eq in H
         | H : Byte.eqb _ _ = true |- _ => apply byte_eqb_spec in H
         end.
  repeat split; assumption.
Qed.

(** Decoding undoes encoding. *)
Lemma a2b_base64_b64encode (s : bytes) :
  Base64.a2b_base64 (Base64.b64encode s) = Returns s.
Proof.
  unfold Base64.a2b_base64.
  remember (List.length s) as n eqn:Hn.
  revert s Hn. induction n as [n IH] using lt_wf_ind. intros s Hn. subst n.
  destruct s as [|x [|y [|z s]]].
  - reflexivity.
  - destruct (sextets_of_one x) as (A1 & A2 & _ & _ & A5 & _).
    cbn [Base64.b64encode]. cbv zeta.
    rewrite a2b_loop_first by exact A1.
    rewrite a2b_loop_second by exact A2.
    rewrite A5. reflexivity.
  - destruct (sextets_of_one x) as (A1 & _).
    destruct (sextets_of_one y) as (_ & _ & _ & B4 & _ & B6 & B7 & _).
    destruct (sextets_of_two x y) as (C1 & _ & C3 & C4 & _).
    cbn [Base64.b64encode]. cbv zeta.
    rewrite a2b_loop_first by exact A1.
    rewrite a2b_loop_second by exact C1.
    rewrite a2b_loop_third by exact B4.
    rewrite C3, C4, B6, B7. reflexivity.
  - destruct (sextets_of_one x) as (A1 & _).
    destruct (sextets_of_one y) as (_ & _ & _ & _ & _ & _ & B7 & _).
    destruct (sextets_of_one z) as (_ & _ & D3 & _ & _ & _ & _ & D8).
    destruct (sextets_of_two x y) as (C1 & _ & C3 & C4 & _).
    destruct (sextets_of_two y z) as (_ & E2 & _ & _ & E5 & E6).
    cbn [Base64.b64encode]. cbv zeta.
    rewrite a2b_loop_first by exact A1.
    rewrite a2b_loop_second by exact C1.
    rewrite a2b_loop_third by exact E2.
    rewrite a2b_loop_fourth by exact D3.
    rewrite C3, C4, E5, E6, B7, D8.
    rewrite (IH (List.length s)); [reflexivity | simpl; lia | reflexivity].
Qed.

(** Every character that [b64encode] writes is in the alphabet or is the
    padding. *)
Lemma b2a_in_alphabet (v : N) : In (Base64.b2a v) (Base64.pad :: Base64.alphabet).
Proof.
  unfold Base64.b2a.
  destruct (nth_in_or_default (N.to_nat v) Base64.alphabet Base64.pad) as [H|H].
  - right. exact H.
  - left. symmetry. exact H.
Qed.

Lemma b64encode_chars (P : byte -> bool) (s : bytes) :
  forallb P (Base64.pad :: Base64.alphabet) = true ->
  Forall (fun c => P c = true) (Base64.b64encode s).
Proof.
  intros H.
  assert (Hb : forall v, P (Base64.b2a v) = true).
  { intros v. apply (proj1 (forallb_forall P _) H), b2a_in_alphabet. }
  assert (Hp : P Base64.pad = true).
  { apply (proj1 (forallb_forall P _) H). left. reflexivity. }
  remember (List.length s) as n eqn:Hn.
  revert s Hn. induction n as [n IH] using lt_wf_ind. intros s Hn. subst n.
  destruct s as [|x [|y [|z s]]]; cbn [Base64.b64encode]; cbv zeta;
    repeat constructor; auto.
  apply (IH (List.length s)); [simpl; lia | reflexivity].
Qed.

Lemma b64encode_nonempty (x : byte) (s : bytes) : Base64.b64encode (x :: s) <> [].
Proof. destruct s as [|y [|z s]]; discriminate. Qed.

(** The encoding of a PDF header starts with [JVBERi]. *)
Lemma pdf_header_prefix (p : bytes) :
  pdf_header p = true ->
  Py.bytes_startswith p pdf_signature = true
  /\ Py.str_startswith (map Byte.to_N (Base64.b64encode p)) (str "JVBERi") = true.
Proof.
  destruct p as [|c1 [|c2 [|c3 [|c4 [|c5 r]]]]]; try discriminate.
  unfold pdf_header. intros H.
  apply andb_true_iff in H. destruct H as [H H3].
  apply andb_true_iff in H. destruct H as [H1 H2].
  apply bytes_eqb_eq in H1. inversion H1; subst.
  split; [reflexivity|].
  assert (S : N.shiftr (Byte.to_N c5) 4 = 2).
  { destruct c5; try discriminate H2; try discriminate H3; reflexivity. }
  destruct r as [|z r]; cbn [Base64.b64encode]; cbv zeta; rewrite S; reflexivity.
Qed.

(** ** The reference parser on the envelope *)

Lemma feed_app (s1 s2 : text) (st : ET.state) :
  ET.feed st (s1 ++ s2) = (st' <- ET.feed st s1 ;; ET.feed st' s2).
Proof.
  revert st. induction s1 as [|c s1 IH]; intros st; [reflexivity|].
  cbn [app ET.feed]. destruct (ET.step st c) as [st'|]; [|reflexivity].
  cbn [bind]. apply IH.
Qed.

(** Inside an element, plain characters accumulate as pending data. *)
Lemma feed_plain (payload : text) :
  Forall (fun c => is_plain c = true) payload ->
  forall f stack d root,
    ET.feed (ET.State ET.Content false (f :: stack) d root) payload
    = Returns (ET.State ET.Content false (f :: stack) (rev payload ++ d) root).
Proof.
  induction 1 as [|c payload Hc Hp IH]; intros f stack d root; [reflexivity|].
  unfold is_plain in Hc.
  apply andb_true_iff in Hc. destruct Hc as [Hc H38].
  apply andb_true_iff in Hc. destruct Hc as [Hc H60].
  apply negb_true_iff in H38. apply negb_true_iff in H60.
  cbn [ET.feed]. unfold ET.step.
  rewrite Hc. cbn [negb ET.st_mode ET.st_stack ET.st_data_rev ET.st_root].
  rewrite H60, H38. cbn [bind]. rewrite IH.
  cbn [rev]. rewrite <- app_assoc. reflexivity.
Qed.

Lemma feed_envelope_prefix :
  ET.feed ET.initial envelope_prefix
  = Returns (ET.State ET.Content false [carrier_frame; root_frame] [] None).
Proof. vm_compute. reflexivity. Qed.

Lemma feed_envelope_suffix (c : N) (d : text) :
  ET.feed (ET.State ET.Content false [carrier_frame; root_frame] (c :: d) None)
          envelope_suffix
  = Returns (ET.State ET.Content false [] []
                      (Some (ET.Elem (str "Root") [] None
                                     [ET.Elem (str "StudyData") []
                                              (Some (rev (c :: d))) [] None]
                                     None))).
Proof. vm_compute. reflexivity. Qed.

Lemma fromstring_envelope (payload : text) :
  payload <> [] ->
  Forall (fun c => is_plain c = true) payload ->
  ET.fromstring (envelope_prefix ++ payload ++ envelope_suffix)
  = Returns (wrapped_tree payload).
Proof.
  intros Hne Hp. unfold ET.fromstring.
  change (ET.skip_mark (envelope_prefix ++ payload ++ envelope_suffix))
    with (envelope_prefix ++ payload ++ envelope_suffix).
  rewrite feed_app, feed_envelope_prefix. cbn [bind].
  rewrite feed_app, (feed_plain payload Hp). cbn [bind].
  rewrite app_nil_r.
  destruct (rev payload) as [|c d] eqn:E.
  { elim Hne. rewrite <- (rev_involutive payload), E. reflexivity. }
  rewrite feed_envelope_suffix. cbn [bind].
  rewrite <- E, rev_involutive.
  destruct payload; [elim Hne; reflexivity | reflexivity].
Qed.

(** ** The round trip through the envelope *)

Lemma utf8_decode_ascii (s : bytes) :
  Forall (fun x => Byte.to_N x < 128) s ->
  Codecs.utf8_decode Codecs.strict s = Returns (map Byte.to_N s).
Proof.
  induction 1 as [|x s Hx Hs IH]; [reflexivity|].
  cbn [Codecs.utf8_decode map]. cbv zeta.
  apply N.ltb_lt in Hx. rewrite Hx, IH. reflexivity.
Qed.

Lemma forallb_Forall {A} (P : A -> bool) (l : list A) :
  forallb P l = true -> Forall (fun x => P x = true) l.
Proof. intros H. apply Forall_forall, forallb_forall. exact H. Qed.

Lemma envelope_text (p : bytes) :
  map Byte.to_N (envelope p)
  = envelope_prefix ++ map Byte.to_N (Base64.b64encode p) ++ envelope_suffix.
Proof.
  unfold envelope, wrap_study_data.
  rewrite (app_assoc xml_declaration), !map_app, <- app_assoc. reflexivity.
Qed.

Lemma envelope_decodes (p : bytes) :
  decode_document (envelope p) = Returns (map Byte.to_N (envelope p)).
Proof.
  unfold decode_document.
  change (Py.bytes_eqb (Py.upto 2 (envelope p)) bom_le) with false.
  change (Py.bytes_eqb (Py.upto 2 (envelope p)) bom_be) with false.
  cbv iota. unfold Codecs.decode. apply utf8_decode_ascii.
  unfold envelope, wrap_study_data.
  apply Forall_app; split;
    [|apply Forall_app; split; [|apply Forall_app; split]].
  - eapply Forall_impl; [|apply (forallb_Forall (fun x => Byte.to_N x <? 128));
                          vm_compute; reflexivity].
    intros x. apply N.ltb_lt.
  - eapply Forall_impl; [|apply (forallb_Forall (fun x => Byte.to_N x <? 128));
                          vm_compute; reflexivity].
    intros x. apply N.ltb_lt.
  - eapply Forall_impl;
      [|apply (b64encode_chars (fun x => Byte.to_N x <? 128));
        vm_compute; reflexivity].
    intros x. apply N.ltb_lt.
  - eapply Forall_impl; [|apply (forallb_Forall (fun x => Byte.to_N x <? 128));
                          vm_compute; reflexivity].
    intros x. apply N.ltb_lt.
Qed.

Lemma b64encode_text (P : N -> bool) (p : bytes) :
  forallb (fun x => P (Byte.to_N x)) (Base64.pad :: Base64.alphabet) = true ->
  Forall (fun c => P c = true) (map Byte.to_N (Base64.b64encode p)).
Proof.
  intros H. apply Forall_map.
  apply (b64encode_chars (fun x => P (Byte.to_N x)) p H).
Qed.

Lemma b64decode_b64encode (p : bytes) :
  Base64.b64decode (map Byte.to_N (Base64.b64encode p)) = Returns p.
Proof.
  unfold Base64.b64decode. rewrite encode_ascii_bytes.
  - cbn [bind]. apply a2b_base64_b64encode.
  - eapply Forall_impl;
      [|apply (b64encode_chars (fun x => Byte.to_N x <? 128));
        vm_compute; reflexivity].
    intros x. apply N.ltb_lt.
Qed.

(** The round trip for any parser that reads the envelope as the tree of
    [Root] and [StudyData]. *)
Lemma extract_envelope_with (fromstring : text -> outcome ET.Element)
      (p : bytes) :
  pdf_header p = true ->
  fromstring (map Byte.to_N (envelope p))
  = Returns (wrapped_tree (map Byte.to_N (Base64.b64encode p))) ->
  extract_pdf_from_xml fromstring (envelope p) = Returns (Some p).
Proof.
  intros H Hparse. destruct (pdf_header_prefix p H) as [Hsig Hpre].
  set (payload := map Byte.to_N (Base64.b64encode p)) in *.
  assert (Hne : payload <> []).
  { destruct p as [|x p]; [discriminate H|].
    unfold payload. intros E. apply map_eq_nil in E.
    exact (b64encode_nonempty x p E). }
  assert (Hstrip : Py.str_strip payload = payload).
  { unfold Py.str_strip. apply strip_clean.
    eapply Forall_impl;
      [|apply (b64encode_text (fun c => negb (Py.isspace c)) p);
        vm_compute; reflexivity].
    intros c. apply negb_true_iff. }
  rewrite (extract_parsed fromstring (envelope p) _ _ (envelope_decodes p) Hparse).
  change (ET.find_descendant (str "StudyData") (wrapped_tree payload))
    with (Some (ET.Elem (str "StudyData") [] (ET.some_text payload) [] None)).
  rewrite (carrier_text_some _ payload).
  - rewrite Hstrip. unfold guarded, decode_pdf. rewrite Hpre.
    unfold payload. rewrite b64decode_b64encode. cbn [bind].
    rewrite Hsig. reflexivity.
  - destruct payload; [elim Hne; reflexivity | reflexivity].
  - rewrite Hstrip. exact Hne.
Qed.

Lemma fromstring_reads_envelope (p : bytes) :
  p <> [] ->
  ET.fromstring (map Byte.to_N (envelope p))
  = Returns (wrapped_tree (map Byte.to_N (Base64.b64encode p))).
Proof.
  intros Hp. rewrite envelope_text. apply fromstring_envelope.
  - destruct p as [|x p]; [elim Hp; reflexivity|].
    intros E. apply map_eq_nil in E. exact (b64encode_nonempty x p E).
  - apply (b64encode_text is_plain). vm_compute. reflexivity.
Qed.




(** * Further properties of the code *)

(** ** The classifier *)

Lemma signature_rules_first (data : bytes) :
  (10 <= List.length data)%nat ->
  (Py.bytes_startswith data pdf_signature = true ->
   detect_file_type data = Returns ".pdf")
  /\ (Py.bytes_startswith data xml_signature = true ->
      detect_file_type data = Returns ".xml").
Proof.
  intros Hlen. rewrite (long_buffer_uses_rules data Hlen). split; intros H.
  - apply bytes_startswith_firstn in H.
    unfold detect_from_pdf, pdf_check, Py.upto.
    change (List.length pdf_signature) with 4%nat in H.
    rewrite H. reflexivity.
  - apply bytes_startswith_firstn in H.
    change (List.length xml_signature) with 5%nat in H.
    assert (Hp : pdf_check data = false).
    { destruct data as [|x data]; [discriminate H|].
      inversion H; subst. reflexivity. }
    unfold detect_from_pdf, detect_from_xml, xml_check, Py.upto.
    rewrite Hp, H. reflexivity.
Qed.

(** X1.  The byte signatures take precedence over every later rule: a buffer
    of at least ten bytes that starts with [%PDF] is classified PDF, and one
    that starts with [<?xml] is classified XML, whatever follows (markup,
    braces, other signatures). *)
Theorem signature_precedence (data : bytes) :
  (10 <= List.length data)%nat ->
  (Py.bytes_startswith data pdf_signature = true ->
   detect_file_type data = Returns ".pdf")
  /\ (Py.bytes_startswith data xml_signature = true ->
      detect_file_type data = Returns ".xml").
Proof. apply signature_rules_first. Qed.

Lemma signature_precedence_witness :
  (10 <= List.length (b "%PDF-1.4 <?xml <html> {"))%nat
  /\ Py.bytes_startswith (b "%PDF-1.4 <?xml <html> {") pdf_signature = true
  /\ detect_file_type (b "%PDF-1.4 <?xml <html> {") = Returns ".pdf".
Proof.
  assert (L : (10 <= List.length (b "%PDF-1.4 <?xml <html> {"))%nat)
    by (simpl; lia).
  split; [exact L|]. split; [reflexivity|].
  apply (proj1 (signature_precedence (b "%PDF-1.4 <?xml <html> {") L)).
  reflexivity.
Defined.

Lemma upto_upto {A} (k n : nat) (l : list A) :
  (k <= n)%nat -> Py.upto k (Py.upto n l) = Py.upto k l.
Proof.
  intros H. unfold Py.upto. rewrite firstn_firstn.
  rewrite Nat.min_l by exact H. reflexivity.
Qed.

Lemma detect_from_pdf_prefix (data : bytes) :
  detect_from_pdf (Py.upto 1000 data) = detect_from_pdf data.
Proof.
  unfold detect_from_pdf, detect_from_xml, detect_from_utf16_le,
    detect_from_utf16_be, detect_from_html, detect_from_json,
    pdf_check, xml_check, utf16_le_check, utf16_be_check, html_check,
    json_probe, utf16_probe.
  rewrite !upto_upto by lia. reflexivity.
Qed.

(** X2.  The classifier reads a bounded prefix: its answer is the same for
    two buffers that agree on their first 1000 bytes, however long they are
    and whatever comes after. *)
Theorem classification_reads_prefix (data data' : bytes) :
  Py.upto 1000 data = Py.upto 1000 data' ->
  detect_file_type data = detect_file_type data'.
Proof.
  intros H.
  assert (P : forall d, detect_file_type (Py.upto 1000 d) = detect_file_type d).
  { intros d. unfold detect_file_type. rewrite detect_from_pdf_prefix.
    unfold Py.upto. rewrite length_firstn.
    destruct (Nat.ltb_spec (List.length d) 10) as [L|L].
    - rewrite Nat.min_r by lia.
      apply Nat.ltb_lt in L. rewrite L. reflexivity.
    - assert (L' : (10 <= Nat.min 1000 (List.length d))%nat) by lia.
      apply Nat.ltb_ge in L'. rewrite L'. reflexivity. }
  rewrite <- (P data), <- (P data'), H. reflexivity.
Qed.

Lemma classification_reads_prefix_witness :
  detect_file_type (repeat x20 1000 ++ b "<html>")
  = detect_file_type (repeat x20 1000 ++ b "{}").
Proof.
  apply classification_reads_prefix. vm_compute. reflexivity.
Defined.

Lemma contains_unfold {A} (eqb : A -> A -> bool) (sub s : list A) :
  Py.contains eqb sub s
  = Py.startswith eqb s sub
    || match s with
       | [] => false
       | _ :: s' => Py.contains eqb sub s'
       end.
Proof. destruct s; reflexivity. Qed.

Lemma contains_middle (before sub after : bytes) :
  Py.bytes_contains sub (before ++ sub ++ after) = true.
Proof.
  unfold Py.bytes_contains.
  induction before as [|x before IH]; rewrite contains_unfold.
  - apply orb_true_iff. left.
    apply (proj2 (startswith_app byte Byte.eqb byte_eqb_spec _ _)).
    exists after. reflexivity.
  - cbn [app]. rewrite IH. apply orb_true_r.
Qed.

(** X3.  The HTML rule ignores the case of ASCII letters and looks at the
    first 1000 bytes: when no earlier rule matches, a buffer that holds
    [<html] or [<!doctype], in any mixture of upper and lower case, wholly
    within its first 1000 bytes is classified HTML. *)
Theorem html_marker_any_case (before marker after : bytes) :
  Py.bytes_lower marker = b "<html" \/ Py.bytes_lower marker = b "<!doctype" ->
  (List.length before + List.length marker <= 1000)%nat ->
  (10 <= List.length (before ++ marker ++ after))%nat ->
  pdf_check (before ++ marker ++ after) = false ->
  xml_check (before ++ marker ++ after) = false ->
  utf16_le_check (before ++ marker ++ after) = None ->
  utf16_be_check (before ++ marker ++ after) = None ->
  detect_file_type (before ++ marker ++ after) = Returns ".html".
Proof.
  intros Hm Hpos Hlen Hp Hx Hle Hbe.
  rewrite (long_buffer_uses_rules _ Hlen).
  unfold detect_from_pdf, detect_from_xml, detect_from_utf16_le,
    detect_from_utf16_be, detect_from_html.
  rewrite Hp, Hx, Hle, Hbe.
  assert (E : Py.bytes_lower (Py.upto 1000 (before ++ marker ++ after))
              = Py.bytes_lower before ++ Py.bytes_lower marker
                ++ Py.bytes_lower
                     (firstn (1000 - List.length before - List.length marker)
                             after)).
  { unfold Py.upto, Py.bytes_lower.
    rewrite firstn_app, (firstn_all2 before) by lia.
    rewrite firstn_app, (firstn_all2 marker) by lia.
    rewrite !map_app. reflexivity. }
  unfold html_check. rewrite E.
  destruct Hm as [Hm|Hm]; rewrite Hm, contains_middle;
    [reflexivity | rewrite orb_true_r; reflexivity].
Qed.

Lemma html_marker_any_case_witness :
  detect_file_type (b "  " ++ b "<!DocType" ++ b " html>") = Returns ".html".
Proof.
  apply html_marker_any_case;
    first [ right; reflexivity | simpl; lia | reflexivity ].
Defined.

(** ** Names and labels *)

(** X10.  The type that [do_POST] and [do_PUT] log for a stored file follows
    from the detected extension alone: whatever the base name is, the name
    with the extension of a tag gets the label of that tag, and [.bin] gets
    [Unknown]. *)
Theorem display_type_follows_extension (base_name : text) :
  display_type (stored_filename base_name ".pdf") = "PDF"
  /\ display_type (stored_filename base_name ".xml") = "XML (ECG Data)"
  /\ display_type (stored_filename base_name ".html") = "HTML"
  /\ display_type (stored_filename base_name ".json") = "JSON"
  /\ display_type (stored_filename base_name ".bin") = "Unknown".
Proof.
  unfold display_type, stored_filename, Py.str_endswith.
  rewrite !rev_app_distr. repeat split; reflexivity.
Qed.

(** ** The two extractors *)

(** X9.  [extract_pdf_from_ecg_xml] of [extract_ecg_pdf.py] and
    [extract_pdf_from_xml] of [http_server.py] agree: on a file that can be
    read, the first returns what the second returns on the contents of the
    file.  A file that cannot be read is the one failure that is not turned
    into the absent result: the exception of [open] propagates. *)
Theorem extractors_agree (fromstring : text -> outcome ET.Element)
        (fs : ExtractEcgPdf.filesystem) (name : string) :
  (forall data,
      fs name = Some data ->
      ExtractEcgPdf.extract_pdf_from_ecg_xml fromstring fs name
      = extract_pdf_from_xml fromstring data)
  /\ (fs name = None ->
      ExtractEcgPdf.extract_pdf_from_ecg_xml fromstring fs name
      = Raises OSError).
Proof.
  split.
  - intros data H. apply extract_file_agrees. exact H.
  - intros H. unfold ExtractEcgPdf.extract_pdf_from_ecg_xml,
                ExtractEcgPdf.read_file.
    rewrite H. reflexivity.
Qed.

Lemma extractors_agree_witness :
  ExtractEcgPdf.extract_pdf_from_ecg_xml
    ET.fromstring (single_file "ecg.xml" (envelope sample_pdf)) "ecg.xml"
  = extract_pdf_from_xml ET.fromstring (envelope sample_pdf)
  /\ ExtractEcgPdf.extract_pdf_from_ecg_xml
       ET.fromstring (single_file "ecg.xml" (envelope sample_pdf)) "other.xml"
     = Raises OSError.
Proof.
  split.
  - apply (proj1 (extractors_agree ET.fromstring
                    (single_file "ecg.xml" (envelope sample_pdf)) "ecg.xml")).
    reflexivity.
  - apply (proj2 (extractors_agree ET.fromstring
                    (single_file "ecg.xml" (envelope sample_pdf)) "other.xml")).
    reflexivity.
Defined.

Lemma carrier_text_inv (sd : option ET.Element) (pdf_data : text) :
  carrier_text sd = Some pdf_data ->
  exists e s, sd = Some e /\ ET.text_ e = Some s
              /\ Py.str_strip s <> [] /\ pdf_data = Py.str_strip s.
Proof.
  unfold carrier_text. destruct sd as [e|]; [|discriminate].
  destruct (ET.text_ e) as [s|] eqn:Et; [|discriminate].
  destruct (Py.truthy s && Py.truthy (Py.str_strip s)) eqn:E; [|discriminate].
  intros H. inversion H; subst. exists e, s.
  apply andb_true_iff in E. destruct E as [_ E].
  split; [reflexivity|]. split; [exact Et|]. split; [|reflexivity].
  destruct (Py.str_strip s); [discriminate E | discriminate].
Qed.

(** X4.  The extractor returns a document in exactly one situation: the
    input decodes and parses, an element [StudyData] below the root is found
    first, its text trimmed of white space is not empty and starts with
    [JVBERi], base64 decoding of that text returns the document, and the
    document starts with [%PDF]. *)
Theorem extraction_characterised (fromstring : text -> outcome ET.Element)
        (data doc : bytes) :
  extract_pdf_from_xml fromstring data = Returns (Some doc)
  <-> exists pdf_data,
      carrier_of fromstring data pdf_data
      /\ Py.str_startswith pdf_data (str "JVBERi") = true
      /\ Base64.b64decode pdf_data = Returns doc
      /\ Py.bytes_startswith doc pdf_signature = true.
Proof.
  split.
  - unfold extract_pdf_from_xml, extract_body.
    destruct (decode_document data) as [t|] eqn:Hd;
      cbn [bind try_except]; [|discriminate].
    destruct (fromstring t) as [root|] eqn:Hp;
      cbn [bind try_except]; [|discriminate].
    destruct (carrier_text _) as [pdf_data|] eqn:Hc; [|discriminate].
    apply carrier_text_inv in Hc. destruct Hc as (e & s & Hf & Ht & Hs & ->).
    unfold decode_pdf.
    destruct (Py.str_startswith _ _) eqn:Hj; [|discriminate].
    destruct (Base64.b64decode _) as [bs|] eqn:Hb;
      cbn [bind try_except]; [|discriminate].
    destruct (Py.bytes_startswith bs pdf_signature) eqn:Hsig; [|discriminate].
    intros H. inversion H; subst.
    exists (Py.str_strip s). repeat split; try assumption.
    exists t, root, e, s. repeat split; assumption.
  - intros (pdf_data & Hc & Hj & Hb & Hsig).
    rewrite (extract_carrier fromstring data pdf_data Hc).
    unfold guarded, decode_pdf. rewrite Hj, Hb. cbn [bind]. rewrite Hsig.
    reflexivity.
Qed.

Lemma extraction_characterised_witness :
  exists pdf_data,
    carrier_of ET.fromstring (envelope sample_pdf) pdf_data
    /\ Py.str_startswith pdf_data (str "JVBERi") = true
    /\ Base64.b64decode pdf_data = Returns sample_pdf
    /\ Py.bytes_startswith sample_pdf pdf_signature = true.
Proof.
  apply (proj1 (extraction_characterised ET.fromstring (envelope sample_pdf)
                                         sample_pdf)).
  vm_compute. reflexivity.
Defined.

(** ** Classification and extraction together *)

Lemma detect_xml_inv (data : bytes) :
  detect_file_type data = Returns ".xml" ->
  Py.bytes_startswith data xml_signature = true
  \/ Py.upto 2 data = bom_le \/ Py.upto 2 data = bom_be.
Proof.
  unfold detect_file_type, detect_from_pdf, detect_from_xml,
    detect_from_utf16_le, detect_from_utf16_be, detect_from_html,
    detect_from_json, utf16_le_check, utf16_be_check.
  destruct (List.length data <? 10)%nat; [discriminate|].
  destruct (pdf_check data); [discriminate|].
  destruct (xml_check data) eqn:Hx.
  { intros _. left. unfold xml_check in Hx. apply bytes_eqb_eq in Hx.
    apply (proj2 (startswith_app byte Byte.eqb byte_eqb_spec _ _)).
    exists (skipn 5 data). rewrite <- Hx. unfold Py.upto.
    symmetry. apply firstn_skipn. }
  destruct (Py.bytes_eqb (Py.upto 2 data) bom_le) eqn:Hle.
  { intros _. right. left. apply bytes_eqb_eq. exact Hle. }
  cbn [andb].
  destruct (Py.bytes_eqb (Py.upto 2 data) bom_be) eqn:Hbe.
  { intros _. right. right. apply bytes_eqb_eq. exact Hbe. }
  destruct (html_check data); [discriminate|].
  destruct (json_probe data) as [ext|] eqn:Hj; [|discriminate].
  unfold json_probe, try_pass in Hj.
  destruct (Codecs.decode _ _ _) as [t|]; cbn [bind] in Hj; [|discriminate].
  destruct (looks_like_json t); inversion Hj; subst. discriminate.
Qed.

(** X8.  In [do_POST] the extractor runs only on a payload that the
    classifier calls XML.  So a document is extracted only from a payload
    that starts with [<?xml] or with a UTF-16 byte-order mark, and what is
    extracted starts with [%PDF]; a payload with any other extension has no
    extracted document, whatever the extractor would make of it. *)
Theorem extraction_only_for_xml (fromstring : text -> outcome ET.Element)
        (data : bytes) :
  (forall ext doc,
      classify_and_extract fromstring data = Returns (ext, Some doc) ->
      ext = ".xml"
      /\ (Py.bytes_startswith data xml_signature = true
          \/ Py.upto 2 data = bom_le \/ Py.upto 2 data = bom_be)
      /\ extract_pdf_from_xml fromstring data = Returns (Some doc)
      /\ Py.upto 4 doc = pdf_signature)
  /\ (forall ext,
         detect_file_type data = Returns ext -> ext <> ".xml" ->
         classify_and_extract fromstring data = Returns (ext, None)).
Proof.
  unfold classify_and_extract. split.
  - intros ext doc.
    destruct (detect_file_type data) as [e|] eqn:Hd; cbn [bind]; [|discriminate].
    destruct (String.eqb e ".xml") eqn:He.
    + apply String.eqb_eq in He. subst e.
      destruct (extract_pdf_from_xml fromstring data) as [r|] eqn:Hx;
        cbn [bind]; [|discriminate].
      intros H. inversion H; subst.
      split; [reflexivity|]. split; [apply detect_xml_inv; exact Hd|].
      split; [reflexivity|].
      apply (bytes_startswith_firstn doc pdf_signature).
      apply (extract_verified fromstring data doc Hx).
    + discriminate.
  - intros ext Hd Hne. rewrite Hd. cbn [bind].
    destruct (String.eqb ext ".xml") eqn:He; [|reflexivity].
    apply String.eqb_eq in He. contradiction.
Qed.

Lemma extraction_only_for_xml_witness :
  classify_and_extract ET.fromstring (envelope sample_pdf)
  = Returns (".xml", Some sample_pdf)
  /\ Py.upto 4 sample_pdf = pdf_signature
  /\ classify_and_extract ET.fromstring
       (b "<Root><StudyData>JVBERi0xLjQ=</StudyData></Root>")
     = Returns (".bin", None).
Proof.
  assert (E : classify_and_extract ET.fromstring (envelope sample_pdf)
              = Returns (".xml", Some sample_pdf)) by (vm_compute; reflexivity).
  split; [exact E|]. split.
  - apply (proj1 (extraction_only_for_xml ET.fromstring (envelope sample_pdf))
                 ".xml" sample_pdf E).
  - apply (proj2 (extraction_only_for_xml ET.fromstring
                    (b "<Root><StudyData>JVBERi0xLjQ=</StudyData></Root>"))).
    + vm_compute. reflexivity.
    + discriminate.
Defined.

(** X11.  An upload of the envelope of a PDF is stored as XML and its PDF is
    extracted: for every [p] with a PDF header, [do_POST] classifies the
    envelope of [p] as [.xml] and extracts [p]. *)
Theorem upload_of_envelope (p : bytes) :
  pdf_header p = true ->
  classify_and_extract ET.fromstring (envelope p) = Returns (".xml", Some p).
Proof.
  intros H. unfold classify_and_extract.
  assert (D : detect_file_type (envelope p) = Returns ".xml").
  { apply signature_rules_first; [|reflexivity].
    unfold envelope, wrap_study_data. rewrite !length_app. simpl. lia. }
  rewrite D. cbn [bind String.eqb Ascii.eqb Bool.eqb].
  change (String.eqb ".xml" ".xml") with true. cbv iota.
  rewrite (extract_envelope_with ET.fromstring p H); [reflexivity|].
  apply fromstring_reads_envelope. intros ->. discriminate H.
Qed.

Lemma upload_of_envelope_witness :
  pdf_header sample_pdf = true
  /\ classify_and_extract ET.fromstring (envelope sample_pdf)
     = Returns (".xml", Some sample_pdf).
Proof.
  split; [reflexivity|]. apply (upload_of_envelope sample_pdf). reflexivity.
Defined.

(** ** Basic authentication *)

Lemma split_once_app (sep : N) (h r : text) :
  ~ In sep h -> Py.split_once sep (h ++ sep :: r) = (h, Some r).
Proof.
  induction h as [|c h IH]; intros Hn; cbn [app Py.split_once].
  - rewrite N.eqb_refl. reflexivity.
  - destruct (c =? sep) eqn:E.
    + apply N.eqb_eq in E. elim Hn. left. exact E.
    + rewrite IH; [reflexivity|]. intros Hin. apply Hn. right. exact Hin.
Qed.

Lemma split_once_some (sep : N) (s h r : text) :
  Py.split_once sep s = (h, Some r) -> s = h ++ sep :: r.
Proof.
  revert h. induction s as [|c s IH]; intros h; cbn [Py.split_once];
    [discriminate|].
  destruct (c =? sep) eqn:E.
  - apply N.eqb_eq in E. intros H. inversion H; subst. reflexivity.
  - destruct (Py.split_once sep s) as [h' r'] eqn:Hs.
    intros H. inversion H; subst. rewrite (IH h' eq_refl). reflexivity.
Qed.

Lemma lower_keeps_space (s : text) :
  Py.str_lower s = str "basic" -> ~ In 32 s.
Proof.
  intros H Hin.
  assert (Hl : In (Py.lower_char 32) (Py.str_lower s)) by (apply in_map; exact Hin).
  rewrite H in Hl. vm_compute in Hl. intuition discriminate.
Qed.

Lemma check_auth_returns (hdr : option text) :
  exists r, check_auth hdr = Returns r.
Proof.
  unfold check_auth. destruct hdr as [h|]; [|eauto].
  destruct (negb (Py.truthy h)); [eauto|].
  match goal with |- context [try_except ?x _] => destruct x end;
    cbn [try_except]; eauto.
Qed.

Lemma check_auth_true_iff (h : text) :
  check_auth (Some h) = Returns true
  <-> exists auth_type credentials raw,
      h = auth_type ++ 32 :: credentials
      /\ Py.str_lower auth_type = str "basic"
      /\ Base64.b64decode credentials = Returns raw
      /\ Codecs.decode Codecs.utf_8 Codecs.strict raw
         = Returns (USERNAME ++ 58 :: PASSWORD).
Proof.
  unfold check_auth. split.
  - destruct (negb (Py.truthy h)); [discriminate|].
    destruct (Py.split_once 32 h) as [a [c|]] eqn:Hs;
      cbn [try_except]; [|discriminate].
    destruct (Py.seq_eqb N.eqb (Py.str_lower a) (str "basic")) eqn:Hl;
      cbn [negb try_except]; [|discriminate].
    unfold check_credentials.
    destruct (Base64.b64decode c) as [raw|] eqn:Hb;
      cbn [bind try_except]; [|discriminate].
    destruct (Codecs.decode Codecs.utf_8 Codecs.strict raw) as [d|] eqn:Hd;
      cbn [bind try_except]; [|discriminate].
    destruct (Py.split_once 58 d) as [u [p|]] eqn:Hc;
      cbn [try_except]; [|discriminate].
    intros H. inversion H as [H'].
    apply andb_true_iff in H'. destruct H' as [Hu Hp].
    apply text_eqb_eq in Hu, Hp, Hl. subst u p.
    exists a, c, raw.
    split; [apply split_once_some; exact Hs|].
    split; [exact Hl|]. split; [exact Hb|].
    rewrite Hd. f_equal. exact (split_once_some 58 d _ _ Hc).
  - intros (a & c & raw & -> & Hl & Hb & Hd).
    assert (T : Py.truthy (a ++ 32 :: c) = true) by (destruct a; reflexivity).
    rewrite T. cbn [negb].
    rewrite (split_once_app 32 a c (lower_keeps_space a Hl)).
    rewrite (proj2 (text_eqb_eq _ _) Hl). cbn [negb].
    unfold check_credentials. rewrite Hb. cbn [bind]. rewrite Hd. cbn [bind].
    reflexivity.
Qed.

(** X7.  [check_auth] never raises, refuses a request without an
    [Authorization] header, and accepts a header value in exactly one case:
    the value is a scheme, one space and credentials, where the scheme is
    [basic] in any mixture of upper and lower case, and the credentials are
    base64 text that decodes to the UTF-8 bytes of [admin:admin123]. *)
Theorem check_auth_characterised (h : text) :
  (forall hdr, exists r, check_auth hdr = Returns r)
  /\ check_auth None = Returns false
  /\ (check_auth (Some h) = Returns true
      <-> exists auth_type credentials raw,
          h = auth_type ++ 32 :: credentials
          /\ Py.str_lower auth_type = str "basic"
          /\ Base64.b64decode credentials = Returns raw
          /\ Codecs.decode Codecs.utf_8 Codecs.strict raw
             = Returns (USERNAME ++ 58 :: PASSWORD)).
Proof.
  split; [exact check_auth_returns|]. split; [reflexivity|].
  apply check_auth_true_iff.
Qed.

Lemma check_auth_characterised_witness :
  check_auth (Some (str "bAsIc " ++ basic_credentials)) = Returns true.
Proof.
  apply (proj2 (proj2 (proj2 (check_auth_characterised
                                (str "bAsIc " ++ basic_credentials))))).
  exists (str "bAsIc"), basic_credentials, (b "admin:admin123").
  repeat split; vm_compute; reflexivity.
Defined.

Lemma encode_ascii_text (t : text) :
  Forall (fun c => c < 128) t ->
  Base64.encode_ascii t = Returns (map byte_of_N t).
Proof.
  induction 1 as [|c t Hc Ht IH]; [reflexivity|].
  cbn [Base64.encode_ascii map]. apply N.ltb_lt in Hc. rewrite Hc, IH.
  reflexivity.
Qed.

(** X13.  What follows the padding of the credentials is not looked at: the
    standard credentials for [admin] and [admin123], followed by any ASCII
    text, are accepted under every spelling of the scheme. *)
Theorem check_auth_ignores_trailing_text (auth_type junk : text) :
  Py.str_lower auth_type = str "basic" ->
  Forall (fun c => c < 128) junk ->
  check_auth (Some (auth_type ++ 32 :: basic_credentials ++ junk))
  = Returns true.
Proof.
  intros Hl Hj. apply check_auth_true_iff.
  exists auth_type, (basic_credentials ++ junk), (b "admin:admin123").
  split; [reflexivity|]. split; [exact Hl|]. split; [|reflexivity].
  unfold Base64.b64decode. rewrite encode_ascii_app.
  rewrite (encode_ascii_text junk Hj).
  change (Base64.encode_ascii basic_credentials)
    with (Returns (map byte_of_N basic_credentials)).
  cbn [bind]. reflexivity.
Qed.

Lemma check_auth_ignores_trailing_text_witness :
  check_auth (Some (str "Basic" ++ 32 :: basic_credentials ++ str "<anything>"))
  = Returns true.
Proof.
  apply check_auth_ignores_trailing_text; [reflexivity|].
  apply Forall_forall. intros c Hc.
  vm_compute in Hc. repeat (destruct Hc as [<-|Hc]; [reflexivity|]).
  contradiction.
Defined.

(** ** Documents in UTF-16 *)

Lemma ascii_is_no_surrogate (c : N) : c < 128 -> Codecs.is_surrogate c = false.
Proof.
  intros H. unfold Codecs.is_surrogate.
  destruct (55296 <=? c) eqn:E; [|reflexivity].
  apply N.leb_le in E. lia.
Qed.

(** ASCII text in UTF-16 decodes to itself, in front of anything. *)
Lemma utf16_decode_ascii (be : bool) (e : Codecs.errors) (d rest : bytes) :
  Forall (fun x => Byte.to_N x < 128) d ->
  Codecs.utf16_decode be e (encode_utf16 be d ++ rest)
  = (r <- Codecs.utf16_decode be e rest ;; Returns (map Byte.to_N d ++ r)).
Proof.
  induction 1 as [|x d Hx Hd IH].
  - cbn [encode_utf16 flat_map app map].
    destruct (Codecs.utf16_decode be e rest); reflexivity.
  - assert (U : Codecs.code_unit be (if be then x00 else x)
                                 (if be then x else x00) = Byte.to_N x).
    { unfold Codecs.code_unit. destruct be; cbn [Byte.to_N]; lia. }
    assert (S : forall tl,
               Codecs.utf16_decode be e
                 ((if be then x00 else x) :: (if be then x else x00) :: tl)
               = emit (Byte.to_N x) (Codecs.utf16_decode be e tl)).
    { intros tl. cbn [Codecs.utf16_decode]. cbv zeta.
      rewrite U, (ascii_is_no_surrogate _ Hx). reflexivity. }
    cbn [encode_utf16 flat_map map]. fold (encode_utf16 be d).
    destruct be; cbn [app]; rewrite S, IH; unfold emit;
      destruct (Codecs.utf16_decode _ e rest); reflexivity.
Qed.

Lemma ascii_has_no_mark (d : bytes) :
  Forall (fun x => Byte.to_N x < 128) d ->
  Py.bytes_eqb (Py.upto 2 d) bom_le = false
  /\ Py.bytes_eqb (Py.upto 2 d) bom_be = false.
Proof.
  intros H. destruct H as [|x d Hx Hd]; [split; reflexivity|].
  assert (x <> xff /\ x <> xfe).
  { split; intros ->; cbn in Hx; lia. }
  unfold Py.upto, Py.bytes_eqb, bom_le, bom_be. cbn [firstn Py.seq_eqb].
  destruct (Byte.eqb x xff) eqn:E1;
    [apply byte_eqb_spec in E1; tauto|].
  destruct (Byte.eqb x xfe) eqn:E2;
    [apply byte_eqb_spec in E2; tauto|].
  split; reflexivity.
Qed.

Lemma decode_document_ascii (d : bytes) :
  Forall (fun x => Byte.to_N x < 128) d ->
  decode_document d = Returns (map Byte.to_N d).
Proof.
  intros H. unfold decode_document.
  destruct (ascii_has_no_mark d H) as [-> ->].
  apply utf8_decode_ascii. exact H.
Qed.

Lemma decode_document_utf16 (be : bool) (d : bytes) :
  Forall (fun x => Byte.to_N x < 128) d ->
  decode_document ((if be then bom_be else bom_le) ++ encode_utf16 be d)
  = Returns (65279 :: map Byte.to_N d).
Proof.
  intros H.
  pose proof (utf16_decode_ascii be Codecs.strict d [] H) as E.
  rewrite app_nil_r in E. cbn [Codecs.utf16_decode bind] in E.
  rewrite app_nil_r in E.
  unfold decode_document.
  destruct be; cbn [app bom_le bom_be Py.upto firstn];
    [ change (Py.bytes_eqb [xfe; xff] [xff; xfe]) with false;
      change (Py.bytes_eqb [xfe; xff] [xfe; xff]) with true
    | change (Py.bytes_eqb [xff; xfe] [xff; xfe]) with true ];
    cbv iota; unfold Codecs.decode;
    cbn [Codecs.utf16_decode]; cbv zeta;
    [ change (Codecs.code_unit true xfe xff) with 65279
    | change (Codecs.code_unit false xff xfe) with 65279 ];
    change (negb (Codecs.is_surrogate 65279)) with true; cbv iota;
    rewrite E; reflexivity.
Qed.

Lemma skip_mark_ascii (d : bytes) :
  Forall (fun x => Byte.to_N x < 128) d ->
  ET.skip_mark (map Byte.to_N d) = map Byte.to_N d.
Proof.
  intros H. destruct H as [|x d Hx Hd]; [reflexivity|].
  cbn [map ET.skip_mark].
  destruct (Byte.to_N x =? 65279) eqn:E; [|reflexivity].
  apply N.eqb_eq in E. lia.
Qed.

Lemma extract_utf16 (be : bool) (d : bytes) :
  Forall (fun x => Byte.to_N x < 128) d ->
  extract_pdf_from_xml ET.fromstring
    ((if be then bom_be else bom_le) ++ encode_utf16 be d)
  = extract_pdf_from_xml ET.fromstring d.
Proof.
  intros H. unfold extract_pdf_from_xml, extract_body.
  rewrite (decode_document_utf16 be d H), (decode_document_ascii d H).
  cbn [bind].
  assert (P : ET.fromstring (65279 :: map Byte.to_N d)
              = ET.fromstring (map Byte.to_N d)).
  { unfold ET.fromstring. rewrite (skip_mark_ascii d H). reflexivity. }
  rewrite P. reflexivity.
Qed.

(** X6.  Extraction does not depend on the encoding of the document: an
    ASCII document re-encoded in UTF-16, little or big endian, with its
    byte-order mark, gives the result of the document itself. *)
Theorem extraction_ignores_encoding (d : bytes) :
  Forall (fun x => Byte.to_N x < 128) d ->
  extract_pdf_from_xml ET.fromstring (bom_le ++ encode_utf16 false d)
  = extract_pdf_from_xml ET.fromstring d
  /\ extract_pdf_from_xml ET.fromstring (bom_be ++ encode_utf16 true d)
     = extract_pdf_from_xml ET.fromstring d.
Proof.
  intros H. split; [apply (extract_utf16 false d H) | apply (extract_utf16 true d H)].
Qed.

Lemma envelope_is_ascii (p : bytes) :
  Forall (fun x => Byte.to_N x < 128) (envelope p).
Proof.
  unfold envelope, wrap_study_data.
  apply Forall_app; split;
    [|apply Forall_app; split; [|apply Forall_app; split]].
  - eapply Forall_impl; [|apply (forallb_Forall (fun x => Byte.to_N x <? 128));
                          vm_compute; reflexivity].
    intros x. apply N.ltb_lt.
  - eapply Forall_impl; [|apply (forallb_Forall (fun x => Byte.to_N x <? 128));
                          vm_compute; reflexivity].
    intros x. apply N.ltb_lt.
  - eapply Forall_impl;
      [|apply (b64encode_chars (fun x => Byte.to_N x <? 128));
        vm_compute; reflexivity].
    intros x. apply N.ltb_lt.
  - eapply Forall_impl; [|apply (forallb_Forall (fun x => Byte.to_N x <? 128));
                          vm_compute; reflexivity].
    intros x. apply N.ltb_lt.
Qed.

Lemma extraction_ignores_encoding_witness :
  extract_pdf_from_xml ET.fromstring
    (bom_le ++ encode_utf16 false (envelope sample_pdf))
  = extract_pdf_from_xml ET.fromstring (envelope sample_pdf).
Proof.
  apply (proj1 (extraction_ignores_encoding (envelope sample_pdf)
                                            (envelope_is_ascii sample_pdf))).
Defined.

Lemma encode_utf16_app (be : bool) (s t : bytes) :
  encode_utf16 be (s ++ t) = encode_utf16 be s ++ encode_utf16 be t.
Proof. unfold encode_utf16. apply flat_map_app. Qed.

Lemma encode_utf16_length (be : bool) (s : bytes) :
  List.length (encode_utf16 be s) = (2 * List.length s)%nat.
Proof.
  induction s as [|x s IH]; [reflexivity|].
  cbn [encode_utf16 flat_map]. fold (encode_utf16 be s).
  rewrite length_app, IH. destruct be; simpl; lia.
Qed.

(** A buffer that opens with a byte-order mark and the XML declaration in the
    matching byte order is classified XML. *)
Lemma detect_declaration_utf16 (be : bool) (rest : bytes) :
  detect_file_type ((if be then bom_be else bom_le)
                    ++ encode_utf16 be xml_declaration ++ rest)
  = Returns ".xml".
Proof.
  set (data := (if be then bom_be else bom_le)
               ++ encode_utf16 be xml_declaration ++ rest).
  assert (Hlen : (10 <= List.length data)%nat).
  { unfold data. rewrite !length_app, encode_utf16_length.
    destruct be; simpl; lia. }
  assert (Hm : Py.upto 2 data = if be then bom_be else bom_le).
  { unfold data. destruct be; reflexivity. }
  assert (Hsig : pdf_check data = false /\ xml_check data = false).
  { apply mark_is_no_signature. rewrite Hm. destruct be; auto. }
  destruct Hsig as [Hp Hx].
  assert (Hprobe : utf16_probe (if be then Codecs.utf_16_be else Codecs.utf_16_le)
                               data = Some ".xml").
  { unfold utf16_probe.
    assert (U : Py.upto 200 data
                = (if be then bom_be else bom_le)
                  ++ encode_utf16 be xml_declaration ++ firstn 156 rest).
    { unfold data. destruct be; reflexivity. }
    rewrite U.
    assert (D : Codecs.decode (if be then Codecs.utf_16_be else Codecs.utf_16_le)
                              Codecs.ignore
                              ((if be then bom_be else bom_le)
                               ++ encode_utf16 be xml_declaration
                               ++ firstn 156 rest)
                = emit 65279
                       (Codecs.utf16_decode be Codecs.ignore
                          (encode_utf16 be xml_declaration ++ firstn 156 rest))).
    { destruct be; reflexivity. }
    rewrite D, utf16_decode_ascii.
    - destruct (utf16_decode_ignore_returns be (firstn 156 rest)) as [t Ht].
      rewrite Ht. cbn [bind emit try_pass].
      change (has_xml_marker (65279 :: map Byte.to_N xml_declaration ++ t))
        with true.
      reflexivity.
    - eapply Forall_impl; [|apply (forallb_Forall (fun x => Byte.to_N x <? 128));
                            vm_compute; reflexivity].
      intros x. apply N.ltb_lt. }
  rewrite (long_buffer_uses_rules data Hlen).
  unfold detect_from_pdf, detect_from_xml. rewrite Hp, Hx.
  unfold detect_from_utf16_le, detect_from_utf16_be.
  destruct be.
  - rewrite (be_mark_is_not_le data Hm). unfold utf16_be_check.
    rewrite (proj2 (bytes_eqb_eq _ _) Hm), Hprobe. reflexivity.
  - unfold utf16_le_check.
    rewrite (proj2 (bytes_eqb_eq _ _) Hm).
    change (Py.bytes_contains (b "<") (Py.upto 20 data)) with true.
    change (Py.bytes_contains (b "?") (Py.upto 20 data)) with true.
    cbn [andb]. rewrite Hprobe. reflexivity.
Qed.

Lemma upload_utf16 (be : bool) (p : bytes) :
  pdf_header p = true ->
  classify_and_extract ET.fromstring
    ((if be then bom_be else bom_le) ++ encode_utf16 be (envelope p))
  = Returns (".xml", Some p).
Proof.
  intros H. unfold classify_and_extract.
  assert (D : detect_file_type
                ((if be then bom_be else bom_le) ++ encode_utf16 be (envelope p))
              = Returns ".xml").
  { unfold envelope, wrap_study_data. rewrite encode_utf16_app.
    apply detect_declaration_utf16. }
  rewrite D. cbn [bind].
  change (String.eqb ".xml" ".xml") with true. cbv iota.
  rewrite (extract_utf16 be (envelope p) (envelope_is_ascii p)).
  rewrite (extract_envelope_with ET.fromstring p H); [reflexivity|].
  apply fromstring_reads_envelope. intros ->. discriminate H.
Qed.

(** X12.  An upload in UTF-16: for every [p] with a PDF header, the envelope
    of [p] encoded in UTF-16, little or big endian, after its byte-order
    mark, is classified [.xml] by [do_POST] and [p] is extracted from it. *)
Theorem upload_of_utf16_envelope (p : bytes) :
  pdf_header p = true ->
  classify_and_extract ET.fromstring
    (bom_le ++ encode_utf16 false (envelope p))
  = Returns (".xml", Some p)
  /\ classify_and_extract ET.fromstring
       (bom_be ++ encode_utf16 true (envelope p))
     = Returns (".xml", Some p).
Proof.
  intros H. split; [apply (upload_utf16 false p H) | apply (upload_utf16 true p H)].
Qed.

Lemma upload_of_utf16_envelope_witness :
  pdf_header sample_pdf = true
  /\ classify_and_extract ET.fromstring
       (bom_le ++ encode_utf16 false (envelope sample_pdf))
     = Returns (".xml", Some sample_pdf).
Proof.
  split; [reflexivity|].
  apply (proj1 (upload_of_utf16_envelope sample_pdf eq_refl)).
Defined.

(** ** White space around and inside the base64 text *)

Section StripFacts.
Variable A : Type.
Variable sp : A -> bool.

Lemma lstrip_all (w r : list A) :
  Forall (fun c => sp c = true) w -> Py.lstrip sp (w ++ r) = Py.lstrip sp r.
Proof.
  induction 1 as [|c w Hc Hw IH]; [reflexivity|].
  cbn [app Py.lstrip]. rewrite Hc. exact IH.
Qed.

Lemma lstrip_split (s : list A) :
  exists l, s = l ++ Py.lstrip sp s /\ Forall (fun c => sp c = true) l.
Proof.
  induction s as [|c s [l [E F]]].
  - exists []. split; [reflexivity | constructor].
  - cbn [Py.lstrip]. destruct (sp c) eqn:Hc.
    + exists (c :: l). split; [cbn [app]; f_equal; exact E|].
      constructor; assumption.
    + exists []. split; [reflexivity | constructor].
Qed.

Lemma rstrip_split (s : list A) :
  exists t, s = Py.rstrip sp s ++ t /\ Forall (fun c => sp c = true) t.
Proof.
  unfold Py.rstrip. destruct (lstrip_split (rev s)) as [l [E F]].
  exists (rev l). split; [|apply Forall_rev; exact F].
  rewrite <- rev_app_distr, <- E, rev_involutive. reflexivity.
Qed.

(** What ends in a character outside the class stays in front. *)
Lemma rstrip_keeps (a r : list A) :
  a <> [] -> Forall (fun c => sp c = false) a ->
  Py.rstrip sp (a ++ r) = a ++ Py.rstrip sp r.
Proof.
  intros Hne Ha. unfold Py.rstrip. rewrite rev_app_distr.
  assert (Hra : Py.lstrip sp (rev a) = rev a).
  { destruct (rev a) as [|c ra] eqn:E.
    - reflexivity.
    - apply lstrip_none.
      assert (Hin : In c (rev a)) by (rewrite E; left; reflexivity).
      apply in_rev in Hin.
      apply (proj1 (Forall_forall _ a) Ha c Hin). }
  destruct (Py.lstrip sp (rev r)) as [|c k] eqn:E.
  - destruct (lstrip_split (rev r)) as [l [El Fl]].
    rewrite E, app_nil_r in El. rewrite El, lstrip_all by exact Fl.
    rewrite Hra, rev_involutive. cbn [rev]. rewrite app_nil_r. reflexivity.
  - rewrite lstrip_app_keep by (rewrite E; discriminate).
    rewrite E, rev_app_distr, rev_involutive. reflexivity.
Qed.
End StripFacts.

Lemma is_blank_cases (x : byte) :
  is_blank x = true -> x = x20 \/ x = x09 \/ x = x0a.
Proof.
  unfold is_blank. intros H.
  apply orb_true_iff in H. destruct H as [H|H];
    [apply orb_true_iff in H; destruct H as [H|H]|];
    apply byte_eqb_spec in H; auto.
Qed.

(** White space is skipped by the decoding loop. *)
Lemma a2b_loop_filter (s : bytes) :
  forall q l p,
    Base64.a2b_loop s q l p
    = Base64.a2b_loop (filter (fun x => negb (is_blank x)) s) q l p.
Proof.
  induction s as [|x s IH]; intros q l p; [reflexivity|].
  cbn [filter]. destruct (is_blank x) eqn:Hb; cbn [negb].
  - apply is_blank_cases in Hb.
    destruct Hb as [-> | [-> | ->]]; cbn [Base64.a2b_loop];
      change (Byte.eqb _ Base64.pad) with false; cbv iota;
      (change (Base64.a2b (Byte.to_N x20)) with (@None N)
       || change (Base64.a2b (Byte.to_N x09)) with (@None N)
       || change (Base64.a2b (Byte.to_N x0a)) with (@None N));
      cbv iota; apply IH.
  - cbn [Base64.a2b_loop].
    repeat match goal with
           | |- context [if ?c then _ else _] => destruct c
           | |- context [match Base64.a2b ?c with _ => _ end] =>
             destruct (Base64.a2b c)
           end;
      rewrite ?IH; reflexivity.
Qed.

Lemma wrap_text (payload : bytes) :
  map Byte.to_N (wrap_study_data payload)
  = envelope_prefix ++ map Byte.to_N payload ++ envelope_suffix.
Proof.
  unfold wrap_study_data.
  rewrite (app_assoc xml_declaration), !map_app, <- app_assoc. reflexivity.
Qed.

Lemma wrap_is_ascii (payload : bytes) :
  Forall (fun x => Byte.to_N x < 128) payload ->
  Forall (fun x => Byte.to_N x < 128) (wrap_study_data payload).
Proof.
  intros H. unfold wrap_study_data.
  apply Forall_app; split;
    [|apply Forall_app; split; [|apply Forall_app; split; [exact H|]]].
  - eapply Forall_impl; [|apply (forallb_Forall (fun x => Byte.to_N x <? 128));
                          vm_compute; reflexivity].
    intros x. apply N.ltb_lt.
  - eapply Forall_impl; [|apply (forallb_Forall (fun x => Byte.to_N x <? 128));
                          vm_compute; reflexivity].
    intros x. apply N.ltb_lt.
  - eapply Forall_impl; [|apply (forallb_Forall (fun x => Byte.to_N x <? 128));
                          vm_compute; reflexivity].
    intros x. apply N.ltb_lt.
Qed.

(** The extractor on a wrapped payload of plain ASCII characters. *)
Lemma extract_wrapped (payload : bytes) :
  Forall (fun x => Byte.to_N x < 128) payload ->
  Forall (fun c => is_plain c = true) (map Byte.to_N payload) ->
  Py.str_strip (map Byte.to_N payload) <> [] ->
  extract_pdf_from_xml ET.fromstring (wrap_study_data payload)
  = guarded (Py.str_strip (map Byte.to_N payload)).
Proof.
  intros Ha Hp Hs.
  assert (Hne : map Byte.to_N payload <> []).
  { intros E. rewrite E in Hs. apply Hs. reflexivity. }
  rewrite (extract_parsed ET.fromstring (wrap_study_data payload)
             (map Byte.to_N (wrap_study_data payload))
             (wrapped_tree (map Byte.to_N payload))).
  - change (ET.find_descendant (str "StudyData")
              (wrapped_tree (map Byte.to_N payload)))
      with (Some (ET.Elem (str "StudyData") []
                          (ET.some_text (map Byte.to_N payload)) [] None)).
    rewrite (carrier_text_some _ (map Byte.to_N payload)).
    + reflexivity.
    + destruct (map Byte.to_N payload); [elim Hne; reflexivity | reflexivity].
    + exact Hs.
  - apply decode_document_ascii, wrap_is_ascii, Ha.
  - rewrite wrap_text. apply fromstring_envelope; assumption.
Qed.

(** The bytes of a payload made of white space and base64 text. *)
Lemma payload_chars (P : byte -> bool) (p lead body : bytes) :
  Forall (fun x => is_blank x = true) lead ->
  filter (fun x => negb (is_blank x)) body = Base64.b64encode p ->
  P x20 = true -> P x09 = true -> P x0a = true ->
  forallb P (Base64.pad :: Base64.alphabet) = true ->
  Forall (fun x => P x = true) (lead ++ body).
Proof.
  intros Hl Hf H1 H2 H3 Hal.
  assert (B : forall x, is_blank x = true -> P x = true).
  { intros x Hx. destruct (is_blank_cases x Hx) as [-> | [-> | ->]]; assumption. }
  apply Forall_app. split.
  - eapply Forall_impl; [|exact Hl]. exact B.
  - apply Forall_forall. intros x Hx.
    destruct (is_blank x) eqn:Hb; [apply B; exact Hb|].
    assert (Hin : In x (Base64.b64encode p)).
    { rewrite <- Hf. apply filter_In. split; [exact Hx|].
      rewrite Hb. reflexivity. }
    apply (proj1 (Forall_forall _ _) (b64encode_chars P p Hal) x Hin).
Qed.

Lemma wrapped_base64 (p lead body : bytes) :
  pdf_header p = true ->
  Forall (fun x => is_blank x = true) lead ->
  Py.bytes_startswith body (b "JVBERi") = true ->
  filter (fun x => negb (is_blank x)) body = Base64.b64encode p ->
  extract_pdf_from_xml ET.fromstring (wrap_study_data (lead ++ body))
  = Returns (Some p).
Proof.
  intros H Hl Hj Hf.
  destruct (pdf_header_prefix p H) as [Hsig _].
  apply (proj1 (startswith_app byte Byte.eqb byte_eqb_spec _ _)) in Hj.
  destruct Hj as [rest Hbody].
  (* the characters of the payload *)
  assert (Hascii : Forall (fun x => Byte.to_N x < 128) (lead ++ body)).
  { eapply Forall_impl;
      [|apply (payload_chars (fun x => Byte.to_N x <? 128) p lead body Hl Hf);
        vm_compute; reflexivity].
    intros x. apply N.ltb_lt. }
  assert (Hplain : Forall (fun c => is_plain c = true)
                          (map Byte.to_N (lead ++ body))).
  { apply Forall_map.
    apply (payload_chars (fun x => is_plain (Byte.to_N x)) p lead body Hl Hf);
      vm_compute; reflexivity. }
  assert (Hclass : Forall (fun x => Py.isspace (Byte.to_N x) = is_blank x)
                          (lead ++ body)).
  { eapply Forall_impl;
      [|apply (payload_chars
                 (fun x => Bool.eqb (Py.isspace (Byte.to_N x)) (is_blank x))
                 p lead body Hl Hf);
        vm_compute; reflexivity].
    intros x. apply Bool.eqb_prop. }
  (* the trimmed text *)
  set (J := str "JVBERi").
  assert (Htext : map Byte.to_N (lead ++ body)
                  = map Byte.to_N lead ++ J ++ map Byte.to_N rest).
  { rewrite Hbody, !map_app. reflexivity. }
  assert (Hlead : Forall (fun c => Py.isspace c = true) (map Byte.to_N lead)).
  { apply Forall_map. eapply Forall_impl; [|exact Hl].
    intros x Hx. destruct (is_blank_cases x Hx) as [-> | [-> | ->]]; reflexivity. }
  assert (Hstrip : Py.str_strip (map Byte.to_N (lead ++ body))
                   = J ++ Py.rstrip Py.isspace (map Byte.to_N rest)).
  { rewrite Htext. unfold Py.str_strip, Py.strip.
    rewrite lstrip_all by exact Hlead.
    change (Py.lstrip Py.isspace (J ++ map Byte.to_N rest))
      with (J ++ map Byte.to_N rest).
    apply rstrip_keeps; [discriminate|].
    eapply Forall_impl;
      [|apply (forallb_Forall (fun c => negb (Py.isspace c)) J); reflexivity].
    intros c. apply negb_true_iff. }
  (* the trimmed text as bytes *)
  destruct (rstrip_split N Py.isspace (map Byte.to_N rest)) as [tt [Ert Ftt]].
  destruct (map_eq_app _ _ _ _ Ert) as (r1 & r2 & Hrest & Hr1 & Hr2).
  assert (Hr2b : filter (fun x => negb (is_blank x)) r2 = []).
  { assert (F2 : Forall (fun x => is_blank x = true) r2).
    { apply Forall_forall. intros x Hx.
      assert (Hin : In x (lead ++ body)).
      { apply in_or_app. right. rewrite Hbody, Hrest.
        apply in_or_app. right. apply in_or_app. right. exact Hx. }
      rewrite <- (proj1 (Forall_forall _ _) Hclass x Hin).
      apply (proj1 (Forall_forall _ _) Ftt). rewrite <- Hr2.
      apply in_map. exact Hx. }
    clear - F2. induction F2 as [|x r2 Hx F2 IH]; [reflexivity|].
    cbn [filter]. rewrite Hx. exact IH. }
  set (Tb := b "JVBERi" ++ r1).
  assert (HT : Py.str_strip (map Byte.to_N (lead ++ body)) = map Byte.to_N Tb).
  { rewrite Hstrip, <- Hr1. unfold Tb. rewrite map_app. reflexivity. }
  assert (HTf : filter (fun x => negb (is_blank x)) Tb = Base64.b64encode p).
  { rewrite <- Hf, Hbody, Hrest. unfold Tb.
    rewrite (app_assoc (b "JVBERi") r1 r2), (filter_app _ (b "JVBERi" ++ r1) r2).
    rewrite Hr2b, app_nil_r. reflexivity. }
  assert (HTa : Forall (fun x => Byte.to_N x < 128) Tb).
  { apply Forall_forall. intros x Hx.
    apply (proj1 (Forall_forall _ _) Hascii).
    apply in_or_app. right. rewrite Hbody, Hrest. unfold Tb in Hx.
    apply in_app_or in Hx. apply in_or_app.
    destruct Hx as [Hx|Hx]; [left; exact Hx|].
    right. apply in_or_app. left. exact Hx. }
  assert (Hdec : Base64.b64decode (map Byte.to_N Tb) = Returns p).
  { unfold Base64.b64decode. rewrite (encode_ascii_bytes Tb HTa). cbn [bind].
    unfold Base64.a2b_base64. rewrite a2b_loop_filter, HTf.
    apply a2b_base64_b64encode. }
  rewrite (extract_wrapped (lead ++ body) Hascii Hplain).
  - rewrite HT. unfold guarded, decode_pdf.
    assert (Hpre : Py.str_startswith (map Byte.to_N Tb) (str "JVBERi") = true).
    { apply (proj2 (startswith_app N N.eqb N.eqb_eq _ _)).
      exists (map Byte.to_N r1). unfold Tb. rewrite map_app. reflexivity. }
    rewrite Hpre, Hdec. cbn [bind]. rewrite Hsig. reflexivity.
  - rewrite HT. unfold Tb. discriminate.
Qed.

(** X5.  White space does not stand in the way of extraction.  For every [p]
    with a PDF header: when the text of [StudyData] is the base64 text of
    [p] preceded by spaces, tabs or line feeds and, from its seventh
    character on, interrupted or followed by any number of them (as in text
    wrapped into lines), the extractor returns [p]. *)
Theorem wrapped_base64_is_extracted (p lead body : bytes) :
  pdf_header p = true ->
  Forall (fun x => is_blank x = true) lead ->
  Py.bytes_startswith body (b "JVBERi") = true ->
  filter (fun x => negb (is_blank x)) body = Base64.b64encode p ->
  extract_pdf_from_xml ET.fromstring (wrap_study_data (lead ++ body))
  = Returns (Some p).
Proof. apply wrapped_base64. Qed.

Lemma wrapped_base64_is_extracted_witness :
  extract_pdf_from_xml ET.fromstring
    (wrap_study_data
       ([x0a; x20; x20]
        ++ join_lines [b "JVBERi0xLjQgbW"; b "luaW1hbCBwZGYg"; b "Ynl0ZXM="; []]))
  = Returns (Some sample_pdf).
Proof.
  apply wrapped_base64_is_extracted.
  - reflexivity.
  - repeat constructor.
  - reflexivity.
  - vm_compute. reflexivity.
Defined.

(** ** The file name of an upload *)




